(** * Countdown timer custom element: formatter and tick scheduler

    Shallow embedding of [src/component.js] (class [CountdownElement]) and of
    the earlier copy of its setter printed in [src/README.md].

    Numbers.  The element only does integer arithmetic on millisecond
    timestamps, so a JavaScript number is modelled as an exact integer
    ([Fin z]) or the not-a-number value ([NaN], the result of parsing an
    invalid date or of converting [undefined]).  Integer arithmetic on
    doubles is exact below 2^53, which covers every millisecond timestamp a
    [Date] can hold; fractional and infinite numbers are outside the model.
    Statements that give the value of the formatter's arithmetic are made
    for integers up to [MAX_SAFE_INTEGER] in magnitude: there every
    quotient, product and difference of lines 127-145 is an integer that a
    double holds exactly, beyond it the doubles round. *)

From Stdlib Require Import ZArith List String Ascii Bool Lia DecimalString.
Import ListNotations.
Local Open Scope string_scope.
Local Open Scope Z_scope.

(** ** JavaScript values and numbers *)

Module Js.

Inductive num : Type :=
| Fin (z : Z)
| NaN.

(** The values the documented inputs of the element range over: absent or
    null, booleans, numbers, strings.  Objects, BigInt and Symbol values
    are left out, and no statement below is about them. *)
Inductive val : Type :=
| Undefined
| Null
| Bool (b : bool)
| Num (n : num)
| Str (s : string).

Definition num_eqb (a b : num) : bool :=
  match a, b with
  | Fin x, Fin y => x =? y
  | _, _ => false
  end.

(** [ToBoolean]: what [if (v)] and [!v] test. *)
Definition truthy (v : val) : bool :=
  match v with
  | Undefined | Null => false
  | Bool b => b
  | Num (Fin z) => negb (z =? 0)
  | Num NaN => false
  | Str s => negb (String.eqb s "")
  end.

(** [v === null] *)
Definition is_null (v : val) : bool :=
  match v with Null => true | _ => false end.

(** [ToNumber] on the values a field can hold once the setter has run
    (a string never survives the setter; its numeric reading is a host
    matter and is [NaN] here). *)
Definition to_number (v : val) : num :=
  match v with
  | Undefined => NaN
  | Null => Fin 0
  | Bool true => Fin 1
  | Bool false => Fin 0
  | Num n => n
  | Str _ => NaN
  end.

Definition sub (a b : num) : num :=
  match a, b with
  | Fin x, Fin y => Fin (x - y)
  | _, _ => NaN
  end.

Definition mul (a b : num) : num :=
  match a, b with
  | Fin x, Fin y => Fin (x * y)
  | _, _ => NaN
  end.

(** [Math.floor(a / b)] for an integer [a] and a positive integer [b]. *)
Definition floor_div (a b : num) : num :=
  match a, b with
  | Fin x, Fin y => Fin (x / y)
  | _, _ => NaN
  end.

(** [a <= 0] and [a > 0]: every comparison with [NaN] is false. *)
Definition le0 (a : num) : bool :=
  match a with Fin x => x <=? 0 | NaN => false end.

Definition gt0 (a : num) : bool :=
  match a with Fin x => 0 <? x | NaN => false end.

(** [a !== 1] *)
Definition neq1 (a : num) : bool :=
  match a with Fin x => negb (x =? 1) | NaN => true end.

(** Template-literal conversion of a number to a string. *)
Definition to_string (a : num) : string :=
  match a with
  | Fin x => NilZero.string_of_int (Z.to_int x)
  | NaN => "NaN"
  end.

(** [s.substring(0, e)] where [e] was computed as [s.length - k]: a negative
    end is clamped to 0, which is what truncated subtraction gives. *)
Definition substring_to (e : nat) (s : string) : string :=
  String.substring 0 e s.

(** [Number.MAX_SAFE_INTEGER], 2^53 - 1. *)
Definition MAX_SAFE_INTEGER : Z := 9007199254740991.

End Js.

Import Js.

(** ** timeMsDiffToString (component.js, lines 126-160) *)

Definition MS_YEAR : Z := 1000 * 60 * 60 * 24 * 365.
Definition MS_MONTH : Z := 1000 * 60 * 60 * 24 * 28.
Definition MS_DAY : Z := 1000 * 60 * 60 * 24.
Definition MS_HOUR : Z := 1000 * 60 * 60.
Definition MS_MINUTE : Z := 1000 * 60.
Definition MS_SECOND : Z := 1000.

Record breakdown : Type := mkBreakdown {
  years : num;
  months : num;
  days : num;
  hours : num;
  minutes : num;
  seconds : num;
  leftover : num
}.

(** Lines 127-145: one division and one subtraction per unit. *)
Definition decompose (ms : num) : breakdown :=
  let elapsed := ms in
  let years := floor_div elapsed (Fin MS_YEAR) in
  let elapsed := sub elapsed (mul years (Fin MS_YEAR)) in
  let months := floor_div elapsed (Fin MS_MONTH) in
  let elapsed := sub elapsed (mul months (Fin MS_MONTH)) in
  let days := floor_div elapsed (Fin MS_DAY) in
  let elapsed := sub elapsed (mul days (Fin MS_DAY)) in
  let hours := floor_div elapsed (Fin MS_HOUR) in
  let elapsed := sub elapsed (mul hours (Fin MS_HOUR)) in
  let minutes := floor_div elapsed (Fin MS_MINUTE) in
  let elapsed := sub elapsed (mul minutes (Fin MS_MINUTE)) in
  let seconds := floor_div elapsed (Fin MS_SECOND) in
  let elapsed := sub elapsed (mul seconds (Fin MS_SECOND)) in
  mkBreakdown years months days hours minutes seconds elapsed.

(** Lines 147-150. *)
Definition formatTime (time : num) (desc : string) (showZero : bool) : string :=
  if gt0 time || showZero
  then to_string time ++ " " ++ desc ++ (if neq1 time then "s" else "") ++ ", "
  else "".

(** Lines 152-159. *)
Definition timeMsDiffToString (ms : num) : string :=
  let b := decompose ms in
  let time :=
    formatTime (years b) "year" false ++
    formatTime (months b) "month" false ++
    formatTime (days b) "day" false ++
    formatTime (hours b) "hour" false ++
    formatTime (minutes b) "minute" false ++
    formatTime (seconds b) "second" true in
  substring_to (String.length time - 2) time.

(** The formatting policy in the words of the specification: every unit
    whose value is positive, and the seconds unit in any case, gives the
    segment "<value> <unitname>[s]"; the segments are joined with ", ". *)
Definition segment_spec (value : num) (unitname : string) : string :=
  to_string value ++ " " ++ unitname ++ (if num_eqb value (Fin 1) then "" else "s").

Definition units_of (b : breakdown) : list (num * string * bool) :=
  [ (years b, "year", false);
    (months b, "month", false);
    (days b, "day", false);
    (hours b, "hour", false);
    (minutes b, "minute", false);
    (seconds b, "second", true) ].

Definition contributes (u : num * string * bool) : bool :=
  let '(value, _, showZero) := u in gt0 value || showZero.

Definition format_spec (ms : num) : string :=
  String.concat ", "
    (map (fun u : num * string * bool => let '(value, unitname, _) := u in segment_spec value unitname)
         (filter contributes (units_of (decompose ms)))).

Definition segment_of (u : num * string * bool) : string :=
  let '(value, unitname, _) := u in segment_spec value unitname.

(** What one call of [formatTime] yields, in terms of the specification's
    segment. *)
Definition piece (u : num * string * bool) : string :=
  let '(value, unitname, _) := u in
  if contributes u then segment_spec value unitname ++ ", " else "".

(** Segments each followed by the separator, concatenated. *)
Fixpoint trailing (l : list string) : string :=
  match l with
  | [] => ""
  | s :: l' => (s ++ ", ") ++ trailing l'
  end.

(** ** The element and its host (component.js, lines 8-120)

    The host side is what the element can observe or change: the [div]
    children it created, the text assigned to them, and the one-shot timers
    handed to [setTimeout].  The wall clock is an input: every call that
    reads [+new Date()] takes the value read as [start]. *)

Record world : Type := mkWorld {
  _countdownDescElement : option nat;   (* null, or the div created on connect *)
  _tickTimer : option nat;              (* null, or a timer handle *)
  _targetTimestamp : val;
  divs : nat;                           (* number of divs created so far *)
  rendered : list (nat * string);       (* innerText assignments, oldest first *)
  pending : list (nat * Z);             (* outstanding timers: handle, delay passed *)
  next_handle : nat;                    (* handle the next setTimeout returns *)
  cleared : list nat                    (* handles passed to clearTimeout *)
}.

Definition with_desc (d : option nat) (w : world) : world :=
  mkWorld d (_tickTimer w) (_targetTimestamp w) (divs w) (rendered w)
          (pending w) (next_handle w) (cleared w).

Definition with_timer (t : option nat) (w : world) : world :=
  mkWorld (_countdownDescElement w) t (_targetTimestamp w) (divs w) (rendered w)
          (pending w) (next_handle w) (cleared w).

Definition with_target (v : val) (w : world) : world :=
  mkWorld (_countdownDescElement w) (_tickTimer w) v (divs w) (rendered w)
          (pending w) (next_handle w) (cleared w).

(** [document.createElement('div')] followed by [appendChild]. *)
Definition createElement (w : world) : nat * world :=
  (divs w,
   mkWorld (_countdownDescElement w) (_tickTimer w) (_targetTimestamp w)
           (S (divs w)) (rendered w) (pending w) (next_handle w) (cleared w)).

(** [d.innerText = s] *)
Definition set_innerText (d : nat) (s : string) (w : world) : world :=
  mkWorld (_countdownDescElement w) (_tickTimer w) (_targetTimestamp w)
          (divs w) (rendered w ++ [(d, s)]) (pending w) (next_handle w) (cleared w).

(** [setTimeout(callback, delay)]: the callback is always the element's
    [nextTick], so only the delay is kept.  Handles are positive. *)
Definition setTimeout (delay : Z) (w : world) : nat * world :=
  (next_handle w,
   mkWorld (_countdownDescElement w) (_tickTimer w) (_targetTimestamp w)
           (divs w) (rendered w) (pending w ++ [(next_handle w, delay)])
           (S (next_handle w)) (cleared w)).

Definition drop_timer (h : nat) (l : list (nat * Z)) : list (nat * Z) :=
  filter (fun p => negb (Nat.eqb (fst p) h)) l.

Definition clearTimeout (h : nat) (w : world) : world :=
  mkWorld (_countdownDescElement w) (_tickTimer w) (_targetTimestamp w)
          (divs w) (rendered w) (drop_timer h (pending w))
          (next_handle w) (cleared w ++ [h]).

(** [if (this._tickTimer)]: null is falsy, a handle is truthy unless 0. *)
Definition timer_truthy (t : option nat) : bool :=
  match t with
  | None => false
  | Some h => negb (Nat.eqb h 0)
  end.

(** Lines 10-16.  The constructor leaves [_targetTimestamp] undefined. *)
Definition construct : world :=
  mkWorld None None Undefined 0 [] [] 1 [].

(** Lines 98-120. *)
Definition nextTick (start : Z) (w : world) : world :=
  match _countdownDescElement w with
  | None => w
  | Some d =>
      let timeDiff := sub (to_number (_targetTimestamp w)) (Fin start) in
      let descStr :=
        if le0 timeDiff then "Already elapsed!" else timeMsDiffToString timeDiff in
      let w := set_innerText d descStr w in
      let nextTime := (start + 1000) / 1000 in
      let diff := nextTime - start in
      snd (setTimeout diff w)
  end.

(** Lines 84-92. *)
Definition disconnectedCallback (w : world) : world :=
  let w :=
    if timer_truthy (_tickTimer w)
    then match _tickTimer w with Some h => clearTimeout h w | None => w end
    else w in
  with_timer None (with_desc None (with_target Null w)).

Section Host.

(** [+new Date(s)] for a string [s]: the host's date parser, [NaN] for a
    string it does not recognise. *)
Variable dateParse : string -> num.

(** Lines 31-35 of component.js. *)
Definition normalize (timestamp : val) : val :=
  if negb (truthy timestamp) then Num (Fin 0)
  else match timestamp with
       | Str s => Num (dateParse s)
       | _ => timestamp
       end.

(** Lines 73-77 of README.md: the same setter prologue with [=== null]. *)
Definition normalize_readme (timestamp : val) : val :=
  if is_null timestamp then Num (Fin 0)
  else match timestamp with
       | Str s => Num (dateParse s)
       | _ => timestamp
       end.

(** Lines 30-41. *)
Definition set_targetTimestamp (timestamp : val) (start : Z) (w : world) : world :=
  let timestamp := normalize timestamp in
  let w := with_target timestamp w in
  let w :=
    if timer_truthy (_tickTimer w)
    then match _tickTimer w with Some h => clearTimeout h w | None => w end
    else w in
  nextTick start w.

(** Lines 72-83 of README.md: the earlier copy of the setter. *)
Definition set_targetTimestamp_readme (timestamp : val) (start : Z) (w : world) : world :=
  let timestamp := normalize_readme timestamp in
  let w := with_target timestamp w in
  let w :=
    if timer_truthy (_tickTimer w)
    then match _tickTimer w with Some h => clearTimeout h w | None => w end
    else w in
  nextTick start w.

(** Lines 54-60. *)
Definition attributeChangedCallback
    (name : string) (oldValue newValue : val) (start : Z) (w : world) : world :=
  if String.eqb name "target-timestamp"
  then set_targetTimestamp newValue start w
  else w.

(** Lines 68-76. *)
Definition connectedCallback (start : Z) (w : world) : world :=
  let '(textDiv, w) := createElement w in
  let w := with_desc (Some textDiv) w in
  set_targetTimestamp (_targetTimestamp w) start w.

(** The host fires an outstanding timer: the handle leaves the pending set
    and the stored callback, [() => this.nextTick()], runs. *)
Definition fire (h : nat) (start : Z) (w : world) : world :=
  if existsb (fun p => Nat.eqb (fst p) h) (pending w)
  then nextTick start
         (mkWorld (_countdownDescElement w) (_tickTimer w) (_targetTimestamp w)
                  (divs w) (rendered w) (drop_timer h (pending w))
                  (next_handle w) (cleared w))
  else w.

(** Everything that can happen to an element once constructed. *)
Inductive event : Type :=
| Connected (start : Z)
| Disconnected
| SetTarget (timestamp : val) (start : Z)
| AttributeChanged (name : string) (oldValue newValue : val) (start : Z)
| TimerFired (h : nat) (start : Z)
| TickCalled (start : Z).

Definition step (w : world) (e : event) : world :=
  match e with
  | Connected start => connectedCallback start w
  | Disconnected => disconnectedCallback w
  | SetTarget v start => set_targetTimestamp v start w
  | AttributeChanged name o n start => attributeChangedCallback name o n start w
  | TimerFired h start => fire h start w
  | TickCalled start => nextTick start w
  end.

Definition run (evs : list event) (w : world) : world :=
  fold_left step evs w.

Definition is_connect (e : event) : bool :=
  match e with Connected _ => true | _ => false end.

End Host.

(** Texts assigned since some earlier moment all went to divs created
    since that moment. *)
Definition only_new_divs (n : nat) (r : list (nat * string)) (w : world) : Prop :=
  (n <= divs w)%nat
  /\ (forall d, _countdownDescElement w = Some d -> (n <= d)%nat)
  /\ exists l, rendered w = (r ++ l)%list /\ Forall (fun p => (n <= fst p)%nat) l.

(** A sample host date parser: it knows the date of the README's example
    attribute (read as UTC) and rejects every other string, the empty one
    included. *)
Definition sampleDateParse (s : string) : num :=
  if String.eqb s "10/12/2022" then Fin 1665532800000 else NaN.

(** ** The remaining members of the class *)

(** Lines 22-24: the getter. *)
Definition get_targetTimestamp (w : world) : val := _targetTimestamp w.

(** Lines 46-49. *)
Definition observedAttributes : list string := ["target-timestamp"].

(** [typeof v === 'string'] *)
Definition is_string (v : val) : bool :=
  match v with Str _ => true | _ => false end.

(** Handles of the outstanding timers. *)
Definition handles (w : world) : list nat := map fst (pending w).

(** The delay line 116-117 computes from the clock value. *)
Definition tick_delay (start : Z) : Z := (start + 1000) / 1000 - start.

(** The host lets every timer outstanding in [w] fire, oldest first, each
    at the time [clock] gives for its handle. *)
Definition fire_all (clock : nat -> Z) (w : world) : list event :=
  map (fun h => TimerFired h (clock h)) (handles w).

(** The text lines 105-111 choose for a stored target and a clock value. *)
Definition tick_text (target : val) (start : Z) : string :=
  let timeDiff := sub (to_number target) (Fin start) in
  if le0 timeDiff then "Already elapsed!" else timeMsDiffToString timeDiff.

(** Handles are handed out once: the outstanding ones are distinct and
    below the next one. *)
Definition timers_wf (w : world) : Prop :=
  NoDup (handles w) /\ Forall (fun h => (h < next_handle w)%nat) (handles w).

(** What the setter can store: never a string, never [false]. *)
Definition storable (v : val) : Prop :=
  match v with
  | Str _ | Bool false => False
  | _ => True
  end.

(** * Properties *)

(** ** Strings *)

Lemma append_assoc (a b c : string) : ((a ++ b) ++ c)%string = (a ++ (b ++ c))%string.
Proof. induction a as [| ch a IH]; simpl; [reflexivity | now rewrite IH]. Qed.

Lemma append_empty_r (a : string) : (a ++ "")%string = a.
Proof. induction a as [| ch a IH]; simpl; [reflexivity | now rewrite IH]. Qed.

Lemma length_append (a b : string) :
  String.length (a ++ b) = (String.length a + String.length b)%nat.
Proof. induction a as [| ch a IH]; simpl; [reflexivity | now rewrite IH]. Qed.

Lemma substring_zero_empty (s : string) : String.substring 0 0 s = "".
Proof. destruct s; reflexivity. Qed.

Lemma substring_prefix (a b : string) :
  String.substring 0 (String.length a) (a ++ b) = a.
Proof.
  induction a as [| ch a IH]; simpl.
  - apply substring_zero_empty.
  - now rewrite IH.
Qed.

(** Cutting the last two characters off a string that ends with the
    separator removes exactly the separator. *)
Lemma strip_separator (a : string) :
  substring_to (String.length (a ++ ", ") - 2) (a ++ ", ") = a.
Proof.
  unfold substring_to. rewrite length_append. simpl String.length at 2.
  replace (String.length a + 2 - 2)%nat with (String.length a) by lia.
  apply substring_prefix.
Qed.

(** ** The formatter *)

Example format_61000 : timeMsDiffToString (Fin 61000) = "1 minute, 1 second".
Proof. reflexivity. Qed.

Example format_nan : timeMsDiffToString NaN = "NaN seconds".
Proof. reflexivity. Qed.

Lemma unit_constants :
  MS_YEAR = 31536000000 /\ MS_MONTH = 2419200000 /\ MS_DAY = 86400000 /\
  MS_HOUR = 3600000 /\ MS_MINUTE = 60000 /\ MS_SECOND = 1000.
Proof. repeat split; reflexivity. Qed.

(** One division step: quotient and what is left after subtracting the
    consumed amount. *)
Lemma division_step (a c : Z) :
  0 <= a -> 0 < c ->
  0 <= a / c /\ 0 <= a - a / c * c < c /\ a - a / c * c = a mod c.
Proof.
  intros Ha Hc.
  pose proof (Z.div_pos a c Ha Hc) as Hq.
  pose proof (Z.mod_pos_bound a c Hc) as Hm.
  pose proof (Z.div_mod a c ltac:(lia)) as Hd.
  repeat split; lia.
Qed.

(** C6.  For a non-negative duration (an integer up to
    [MAX_SAFE_INTEGER], where the code's arithmetic on doubles is the exact
    one) the six components are the successive
    quotients by the fixed divisors (365-day year, 28-day month, day, hour,
    minute, second), each taken on what the previous units left; the
    divisors are strictly descending; the components and the sub-second
    remainder add up to the duration and stay within the ranges the
    divisors allow; and one year, two days and three seconds format as
    "1 year, 2 days, 3 seconds". *)
Theorem decompose_successive_division (ms : Z)
    (Hms : 0 <= ms) (Hsafe : ms <= MAX_SAFE_INTEGER) :
  let y := ms / (365 * 24 * 3600 * 1000) in
  let r1 := ms - y * (365 * 24 * 3600 * 1000) in
  let mo := r1 / (28 * 24 * 3600 * 1000) in
  let r2 := r1 - mo * (28 * 24 * 3600 * 1000) in
  let d := r2 / (24 * 3600 * 1000) in
  let r3 := r2 - d * (24 * 3600 * 1000) in
  let h := r3 / (3600 * 1000) in
  let r4 := r3 - h * (3600 * 1000) in
  let mi := r4 / (60 * 1000) in
  let r5 := r4 - mi * (60 * 1000) in
  let s := r5 / 1000 in
  let r6 := r5 - s * 1000 in
  decompose (Fin ms) =
    mkBreakdown (Fin y) (Fin mo) (Fin d) (Fin h) (Fin mi) (Fin s) (Fin r6)
  /\ (MS_YEAR > MS_MONTH /\ MS_MONTH > MS_DAY /\ MS_DAY > MS_HOUR /\
      MS_HOUR > MS_MINUTE /\ MS_MINUTE > MS_SECOND)
  /\ ms = y * MS_YEAR + mo * MS_MONTH + d * MS_DAY + h * MS_HOUR
          + mi * MS_MINUTE + s * MS_SECOND + r6
  /\ (0 <= y /\ 0 <= mo <= 13 /\ 0 <= d < 28 /\ 0 <= h < 24 /\
      0 <= mi < 60 /\ 0 <= s < 60 /\ 0 <= r6 < 1000)
  /\ timeMsDiffToString (Fin (1 * MS_YEAR + 2 * MS_DAY + 3 * MS_SECOND))
     = "1 year, 2 days, 3 seconds".
Proof.
  intros y r1 mo r2 d r3 h r4 mi r5 s r6.
  destruct unit_constants as (EY & EM & ED & EH & EMi & ES).
  destruct (division_step ms 31536000000 Hms ltac:(lia)) as (Hy & Hr1 & _).
  change (365 * 24 * 3600 * 1000) with 31536000000 in *.
  change (28 * 24 * 3600 * 1000) with 2419200000 in *.
  change (24 * 3600 * 1000) with 86400000 in *.
  change (3600 * 1000) with 3600000 in *.
  change (60 * 1000) with 60000 in *.
  fold y in Hy, Hr1. fold r1 in Hr1.
  destruct (division_step r1 2419200000 ltac:(lia) ltac:(lia)) as (Hmo & Hr2 & _).
  fold mo in Hmo, Hr2. fold r2 in Hr2.
  destruct (division_step r2 86400000 ltac:(lia) ltac:(lia)) as (Hd & Hr3 & _).
  fold d in Hd, Hr3. fold r3 in Hr3.
  destruct (division_step r3 3600000 ltac:(lia) ltac:(lia)) as (Hh & Hr4 & _).
  fold h in Hh, Hr4. fold r4 in Hr4.
  destruct (division_step r4 60000 ltac:(lia) ltac:(lia)) as (Hmi & Hr5 & _).
  fold mi in Hmi, Hr5. fold r5 in Hr5.
  destruct (division_step r5 1000 ltac:(lia) ltac:(lia)) as (Hs & Hr6 & _).
  fold s in Hs, Hr6. fold r6 in Hr6.
  split; [reflexivity |].
  split; [rewrite EY, EM, ED, EH, EMi, ES; lia |].
  split; [rewrite EY, EM, ED, EH, EMi, ES; unfold r6, r5, r4, r3, r2, r1; lia |].
  split; [| vm_compute; reflexivity].
  repeat split; try assumption; try lia.
Qed.

Lemma decompose_successive_division_witness :
  0 <= 61000 /\ 61000 <= MAX_SAFE_INTEGER /\
  decompose (Fin 61000) =
    mkBreakdown (Fin 0) (Fin 0) (Fin 0) (Fin 0) (Fin 1) (Fin 1) (Fin 0).
Proof.
  split; [lia |]. split; [unfold MAX_SAFE_INTEGER; lia |].
  exact (proj1 (decompose_successive_division 61000 ltac:(lia)
                  ltac:(unfold MAX_SAFE_INTEGER; lia))).
Defined.

Lemma neq1_num_eqb (v : num) : neq1 v = negb (num_eqb v (Fin 1)).
Proof. destruct v; reflexivity. Qed.

Lemma formatTime_piece (v : num) (desc : string) (showZero : bool) :
  formatTime v desc showZero = piece (v, desc, showZero).
Proof.
  unfold formatTime, piece, contributes, segment_spec.
  destruct (gt0 v || showZero); [| reflexivity].
  rewrite neq1_num_eqb.
  destruct (num_eqb v (Fin 1)); simpl negb; cbv iota;
    now rewrite !append_assoc.
Qed.

Lemma trailing_concat (l : list string) :
  l <> [] -> trailing l = (String.concat ", " l ++ ", ")%string.
Proof.
  induction l as [| s l IH]; intros Hne; [congruence |].
  destruct l as [| s' l'].
  - simpl. now rewrite append_empty_r.
  - change (trailing (s :: s' :: l')) with ((s ++ ", ") ++ trailing (s' :: l'))%string.
    rewrite IH by discriminate.
    change (String.concat ", " (s :: s' :: l'))
      with (s ++ ", " ++ String.concat ", " (s' :: l'))%string.
    now rewrite !append_assoc.
Qed.

Lemma pieces_trailing (us : list (num * string * bool)) :
  fold_right (fun u acc => (piece u ++ acc)%string) "" us
  = trailing (map segment_of (filter contributes us)).
Proof.
  induction us as [| [[v n] z] us IH]; [reflexivity |].
  simpl fold_right. rewrite IH. clear IH.
  cbn [filter]. unfold piece, contributes.
  destruct (gt0 v || z); reflexivity.
Qed.

Lemma timeMsDiffToString_pieces (ms : num) :
  timeMsDiffToString ms =
  let time := fold_right (fun u acc => (piece u ++ acc)%string) ""
                         (units_of (decompose ms)) in
  substring_to (String.length time - 2) time.
Proof.
  unfold timeMsDiffToString, units_of. cbv zeta. simpl fold_right.
  rewrite !formatTime_piece, append_empty_r. reflexivity.
Qed.

Lemma seconds_always_contributes (b : breakdown) :
  map segment_of (filter contributes (units_of b)) <> [].
Proof.
  intros Hnil.
  assert (Hin : In (segment_of (seconds b, "second", true))
                   (map segment_of (filter contributes (units_of b)))).
  { apply in_map, filter_In. split.
    - unfold units_of. simpl. tauto.
    - unfold contributes. apply orb_true_r. }
  rewrite Hnil in Hin. exact Hin.
Qed.

(** The source's concatenate-then-cut agrees with the specification's
    join, for every input. *)
Lemma timeMsDiffToString_format_spec (ms : num) :
  timeMsDiffToString ms = format_spec ms.
Proof.
  rewrite timeMsDiffToString_pieces. cbv zeta.
  rewrite pieces_trailing, trailing_concat by apply seconds_always_contributes.
  rewrite strip_separator. reflexivity.
Qed.

(** C7.  For a non-negative duration the result is the ", "-joined list, in
    unit order, of the segments "<value> <unitname>[s]" (no "s" exactly when
    the value is 1) of the units whose value is positive, the seconds unit
    being listed even when zero; the trailing separator is gone;
    format(0) = "0 seconds" and format(1000) = "1 second". *)
Theorem timeMsDiffToString_policy (ms : Z) (Hms : 0 <= ms) :
  timeMsDiffToString (Fin ms) = format_spec (Fin ms)
  /\ (forall v n, In (v, n, false) (filter contributes (units_of (decompose (Fin ms))))
        -> exists z, v = Fin z /\ 0 < z)
  /\ In (seconds (decompose (Fin ms)), "second", true)
        (filter contributes (units_of (decompose (Fin ms))))
  /\ map (fun u : num * string * bool => snd (fst u)) (units_of (decompose (Fin ms)))
     = ["year"; "month"; "day"; "hour"; "minute"; "second"]
  /\ timeMsDiffToString (Fin 0) = "0 seconds"
  /\ timeMsDiffToString (Fin 1000) = "1 second".
Proof.
  split; [apply timeMsDiffToString_format_spec |].
  split.
  { intros v n Hin. apply filter_In in Hin. destruct Hin as [_ Hc].
    unfold contributes in Hc. rewrite orb_false_r in Hc.
    destruct v as [z |]; [| discriminate].
    exists z. split; [reflexivity |]. simpl in Hc. lia. }
  split.
  { apply filter_In. split; [simpl; tauto | apply orb_true_r]. }
  split; [reflexivity |].
  split; vm_compute; reflexivity.
Qed.

Lemma timeMsDiffToString_policy_witness :
  0 <= 3661000 /\
  timeMsDiffToString (Fin 3661000) = "1 hour, 1 minute, 1 second".
Proof.
  split; [lia |].
  exact (proj1 (timeMsDiffToString_policy 3661000 ltac:(lia))).
Defined.

(** C10.  364 days are less than the fixed 365-day year and exactly thirteen
    28-day months: the months component is 13 and the text is
    "13 months, 0 seconds". *)
Theorem months_not_bounded_by_12 :
  0 <= 31449600000 < MS_YEAR
  /\ 31449600000 = 364 * MS_DAY
  /\ 31449600000 = 13 * MS_MONTH
  /\ months (decompose (Fin 31449600000)) = Fin 13
  /\ timeMsDiffToString (Fin 31449600000) = "13 months, 0 seconds".
Proof.
  repeat split; try (vm_compute; congruence); vm_compute; reflexivity.
Qed.

(** ** The tick *)

Lemma nextTick_unbound (start : Z) (w : world) :
  _countdownDescElement w = None -> nextTick start w = w.
Proof. intros H. unfold nextTick. now rewrite H. Qed.

(** What a tick with a bound sink does: one text assignment, one timer. *)
Lemma nextTick_bound (start : Z) (w : world) (d : nat) :
  _countdownDescElement w = Some d ->
  let timeDiff := sub (to_number (_targetTimestamp w)) (Fin start) in
  nextTick start w =
  mkWorld (Some d) (_tickTimer w) (_targetTimestamp w) (divs w)
          (rendered w ++
             [(d, if le0 timeDiff then "Already elapsed!"
                  else timeMsDiffToString timeDiff)])
          (pending w ++ [(next_handle w, (start + 1000) / 1000 - start)])
          (S (next_handle w)) (cleared w).
Proof.
  intros H. unfold nextTick. rewrite H. cbv zeta.
  unfold setTimeout, set_innerText.
  cbn [snd _countdownDescElement _tickTimer _targetTimestamp divs rendered
       pending next_handle cleared].
  rewrite H. reflexivity.
Qed.

(** The tick never touches the element's own fields. *)
Lemma nextTick_fields (start : Z) (w : world) :
  _countdownDescElement (nextTick start w) = _countdownDescElement w /\
  _tickTimer (nextTick start w) = _tickTimer w /\
  _targetTimestamp (nextTick start w) = _targetTimestamp w /\
  divs (nextTick start w) = divs w /\
  cleared (nextTick start w) = cleared w.
Proof.
  unfold nextTick. destruct (_countdownDescElement w) eqn:E; simpl; auto.
Qed.

(** Bring in what the tick in the goal leaves untouched. *)
Ltac tick_fields start Ht Hc :=
  match goal with
  | |- context [nextTick start ?x] =>
      destruct (nextTick_fields start x) as (_ & Ht & _ & _ & Hc)
  end.

(** C5.  With a render sink bound and an integer target [t], a tick at time
    [start] assigns exactly one text to the sink: "Already elapsed!" when
    [t - start <= 0], and the formatter's text for [t - start] when
    [t - start > 0]. *)
Theorem nextTick_renders (w : world) (d : nat) (t start : Z)
    (Hsink : _countdownDescElement w = Some d)
    (Htarget : _targetTimestamp w = Num (Fin t)) :
  (t - start <= 0 ->
     rendered (nextTick start w) = (rendered w ++ [(d, "Already elapsed!")])%list)
  /\ (t - start > 0 ->
     rendered (nextTick start w)
     = (rendered w ++ [(d, timeMsDiffToString (Fin (t - start)))])%list).
Proof.
  rewrite (nextTick_bound start w d Hsink). cbv zeta. rewrite Htarget. simpl.
  split; intros Hcmp.
  - now rewrite (proj2 (Z.leb_le _ _) Hcmp).
  - destruct (Z.leb_spec (t - start) 0) as [Hle | Hgt]; [lia | reflexivity].
Qed.

Lemma nextTick_renders_witness :
  rendered (nextTick 1000 (with_target (Num (Fin 62000)) (with_desc (Some 0%nat) construct)))
  = [(0%nat, "1 minute, 1 second")]
  /\ rendered (nextTick 1000 (with_target (Num (Fin 1000)) (with_desc (Some 0%nat) construct)))
  = [(0%nat, "Already elapsed!")].
Proof.
  split.
  - exact (proj2 (nextTick_renders
                    (with_target (Num (Fin 62000)) (with_desc (Some 0%nat) construct))
                    0%nat 62000 1000 eq_refl eq_refl) ltac:(lia)).
  - exact (proj1 (nextTick_renders
                    (with_target (Num (Fin 1000)) (with_desc (Some 0%nat) construct))
                    0%nat 1000 1000 eq_refl eq_refl) ltac:(lia)).
Defined.

(** The delay handed to [setTimeout] by a tick with a bound sink. *)
Lemma nextTick_delay (start : Z) (w : world) (d : nat) :
  _countdownDescElement w = Some d ->
  pending (nextTick start w)
  = (pending w ++ [(next_handle w, (start + 1000) / 1000 - start)])%list.
Proof. intros H. now rewrite (nextTick_bound start w d H). Qed.

(** From the epoch onwards that delay is never the distance to the next
    whole second: line 116 leaves the quotient in seconds. *)
Lemma nextTick_delay_not_aligned (start : Z) :
  0 <= start ->
  (start + 1000) / 1000 - start <> (start + 1000) / 1000 * 1000 - start.
Proof.
  intros H.
  assert (0 < (start + 1000) / 1000) by (apply Z.div_str_pos; lia).
  lia.
Qed.

(** C1.  An element connected at time 1500 hands [setTimeout] the delay
    -1498, where the distance to the next whole second is 500. *)
Theorem nextTick_delay_at_1500 :
  pending (run sampleDateParse [Connected 1500] construct) = [(1%nat, -1498)]
  /\ (1500 + 1000) / 1000 * 1000 - 1500 = 500.
Proof. split; vm_compute; reflexivity. Qed.

(** ** The timer field *)

Section Scheduler.

Variable dateParse : string -> num.

(** The part of the setter and of the disconnect hook that runs before the
    tick: same sink, same divs, same texts, whatever the guard decides. *)
Lemma guard_frame (w : world) :
  let w' := if timer_truthy (_tickTimer w)
            then match _tickTimer w with Some h => clearTimeout h w | None => w end
            else w in
  _countdownDescElement w' = _countdownDescElement w /\
  divs w' = divs w /\ rendered w' = rendered w /\ _targetTimestamp w' = _targetTimestamp w.
Proof.
  cbv zeta. destruct (timer_truthy (_tickTimer w)); [| auto].
  destruct (_tickTimer w); simpl; auto.
Qed.

Lemma set_targetTimestamp_null (v : val) (start : Z) (w : world) :
  _tickTimer w = None ->
  set_targetTimestamp dateParse v start w
  = nextTick start (with_target (normalize dateParse v) w).
Proof.
  intros H. unfold set_targetTimestamp. cbv zeta.
  unfold with_target at 1 2. cbn [_tickTimer]. rewrite H. reflexivity.
Qed.

Lemma step_keeps_timer_null (w : world) (e : event) :
  _tickTimer w = None ->
  _tickTimer (step dateParse w e) = None /\ cleared (step dateParse w e) = cleared w.
Proof.
  intros H. destruct e as [start | | v start | name o n start | h start | start];
    cbn [step].
  - unfold connectedCallback, createElement.
    rewrite set_targetTimestamp_null by exact H.
    tick_fields start Ht Hc. rewrite Ht, Hc. simpl. auto.
  - unfold disconnectedCallback. rewrite H. simpl. auto.
  - rewrite set_targetTimestamp_null by exact H.
    destruct (nextTick_fields start (with_target (normalize dateParse v) w))
      as (_ & Ht & _ & _ & Hc).
    rewrite Ht, Hc. simpl. auto.
  - unfold attributeChangedCallback.
    destruct (String.eqb name "target-timestamp"); [| auto].
    rewrite set_targetTimestamp_null by exact H.
    tick_fields start Ht Hc. rewrite Ht, Hc. simpl. auto.
  - unfold fire.
    destruct (existsb (fun p => Nat.eqb (fst p) h) (pending w)); [| auto].
    tick_fields start Ht Hc. rewrite Ht, Hc. simpl. auto.
  - tick_fields start Ht Hc. rewrite Ht, Hc. auto.
Qed.

Lemma run_keeps_timer_null (evs : list event) (w : world) :
  _tickTimer w = None ->
  _tickTimer (run dateParse evs w) = None /\ cleared (run dateParse evs w) = cleared w.
Proof.
  revert w. induction evs as [| e evs IH]; intros w H; [auto |].
  cbn [run fold_left].
  destruct (step_keeps_timer_null w e H) as [Ht Hc].
  destruct (IH _ Ht) as [Ht' Hc'].
  fold (run dateParse evs (step dateParse w e)).
  rewrite Ht', Hc', Hc. auto.
Qed.

(** C3.  Whatever happens to a freshly constructed element - connects,
    disconnects, assignments to [targetTimestamp], attribute changes, timers
    firing, direct ticks - [_tickTimer] is still null afterwards, so the two
    [if (this._tickTimer)] guards are false and [clearTimeout] has never
    been called. *)
Theorem tickTimer_stays_null (evs : list event) :
  _tickTimer (run dateParse evs construct) = None
  /\ timer_truthy (_tickTimer (run dateParse evs construct)) = false
  /\ cleared (run dateParse evs construct) = [].
Proof.
  destruct (run_keeps_timer_null evs construct eq_refl) as [Ht Hc].
  rewrite Ht. auto.
Qed.

(** With the field null, an assignment to [targetTimestamp] on a connected
    element adds a timer and removes none. *)
Lemma set_targetTimestamp_adds_timer (v : val) (start : Z) (w : world) (d : nat) :
  _tickTimer w = None ->
  _countdownDescElement w = Some d ->
  pending (set_targetTimestamp dateParse v start w)
  = (pending w ++ [(next_handle w, (start + 1000) / 1000 - start)])%list.
Proof.
  intros Ht Hd. rewrite set_targetTimestamp_null by exact Ht.
  now rewrite (nextTick_delay start _ d) by exact Hd.
Qed.

End Scheduler.

(** C2.  Connecting an element and assigning the same target twice in a row
    leaves three timers outstanding (one from the connect, one from each
    assignment) and has cancelled none. *)
Theorem set_twice_leaves_three_timers :
  let w := run sampleDateParse
               [Connected 1000; SetTarget (Num (Fin 5000)) 1000;
                SetTarget (Num (Fin 5000)) 1000] construct in
  map fst (pending w) = [1%nat; 2%nat; 3%nat]
  /\ cleared w = []
  /\ _tickTimer w = None.
Proof. vm_compute. auto. Qed.

(** ** Rendering after a disconnect *)

Section AfterDisconnect.

Variable dateParse : string -> num.

Lemma disconnectedCallback_frame (w : world) :
  _countdownDescElement (disconnectedCallback w) = None /\
  divs (disconnectedCallback w) = divs w /\
  rendered (disconnectedCallback w) = rendered w.
Proof.
  unfold disconnectedCallback.
  destruct (guard_frame w) as (_ & Hd & Hr & _). cbv zeta in Hd, Hr.
  cbn [with_timer with_desc with_target _countdownDescElement divs rendered].
  auto.
Qed.

(** Every step is some frame-preserving preparation followed by at most one
    tick; only a connect changes the sink or the number of divs before that
    tick. *)
Lemma step_shape (w : world) (e : event) :
  exists w1,
    (step dateParse w e = w1 \/ exists start, step dateParse w e = nextTick start w1)
    /\ rendered w1 = rendered w
    /\ (if is_connect e
        then _countdownDescElement w1 = Some (divs w) /\ divs w1 = S (divs w)
        else (_countdownDescElement w1 = _countdownDescElement w
              \/ _countdownDescElement w1 = None) /\ divs w1 = divs w).
Proof.
  destruct e as [start | | v start | name o n start | h start | start];
    cbn [step is_connect].
  - unfold connectedCallback, createElement, set_targetTimestamp. cbv zeta.
    eexists. split; [right; exists start; reflexivity |].
    match goal with
    | |- context [if timer_truthy (_tickTimer ?x) then _ else _] =>
        destruct (guard_frame x) as (Hs & Hd & Hr & _)
    end.
    cbv zeta in Hs, Hd, Hr. rewrite Hs, Hd, Hr. simpl. auto.
  - exists (disconnectedCallback w).
    destruct (disconnectedCallback_frame w) as (Hs & Hd & Hr). auto.
  - unfold set_targetTimestamp. cbv zeta.
    eexists. split; [right; exists start; reflexivity |].
    match goal with
    | |- context [if timer_truthy (_tickTimer ?x) then _ else _] =>
        destruct (guard_frame x) as (Hs & Hd & Hr & _)
    end.
    cbv zeta in Hs, Hd, Hr. rewrite Hs, Hd, Hr. simpl. auto.
  - unfold attributeChangedCallback.
    destruct (String.eqb name "target-timestamp").
    + unfold set_targetTimestamp. cbv zeta.
      eexists. split; [right; exists start; reflexivity |].
      match goal with
      | |- context [if timer_truthy (_tickTimer ?x) then _ else _] =>
          destruct (guard_frame x) as (Hs & Hd & Hr & _)
      end.
      cbv zeta in Hs, Hd, Hr. rewrite Hs, Hd, Hr. simpl. auto.
    + exists w. auto.
  - unfold fire.
    destruct (existsb (fun p => Nat.eqb (fst p) h) (pending w)).
    + eexists. split; [right; exists start; reflexivity |]. simpl. auto.
    + exists w. auto.
  - exists w. split; [right; exists start; reflexivity | auto].
Qed.

(** While no sink is bound, a step that is not a connect renders nothing
    and binds nothing. *)
Lemma step_unbound (w : world) (e : event) :
  is_connect e = false ->
  _countdownDescElement w = None ->
  _countdownDescElement (step dateParse w e) = None
  /\ rendered (step dateParse w e) = rendered w.
Proof.
  intros He Hw.
  destruct (step_shape w e) as (w1 & Hstep & Hr & Hs). rewrite He in Hs.
  assert (Hs1 : _countdownDescElement w1 = None)
    by (destruct Hs as [[Hs | Hs] _]; congruence).
  destruct Hstep as [-> | [start ->]].
  - auto.
  - rewrite (nextTick_unbound start w1 Hs1). auto.
Qed.

Lemma run_unbound (evs : list event) (w : world) :
  existsb is_connect evs = false ->
  _countdownDescElement w = None ->
  _countdownDescElement (run dateParse evs w) = None
  /\ rendered (run dateParse evs w) = rendered w.
Proof.
  revert w. induction evs as [| e evs IH]; intros w Hevs Hw; [auto |].
  cbn [existsb] in Hevs. apply orb_false_elim in Hevs. destruct Hevs as [He Hevs].
  destruct (step_unbound w e He Hw) as [Hs Hr].
  cbn [run fold_left]. fold (run dateParse evs (step dateParse w e)).
  destruct (IH _ Hevs Hs) as [Hs' Hr']. rewrite Hs', Hr', Hr. auto.
Qed.

Lemma nextTick_only_new_divs (n : nat) (r : list (nat * string)) (start : Z) (w : world) :
  only_new_divs n r w -> only_new_divs n r (nextTick start w).
Proof.
  intros (Hdivs & Hsink & l & Hr & Hl).
  destruct (_countdownDescElement w) as [d |] eqn:E.
  - rewrite (nextTick_bound start w d E). cbv zeta.
    split; [exact Hdivs |]. split.
    + cbn [_countdownDescElement]. intros d' Hd'. inversion Hd'; subst. now apply Hsink.
    + cbn [rendered]. eexists. split.
      * rewrite Hr, <- app_assoc. reflexivity.
      * apply Forall_app. split; [exact Hl |].
        constructor; [| constructor]. cbn [fst]. now apply Hsink.
  - rewrite (nextTick_unbound start w E).
    split; [exact Hdivs |]. split; [| now exists l].
    intros d Hd. congruence.
Qed.

Lemma step_only_new_divs (n : nat) (r : list (nat * string)) (w : world) (e : event) :
  only_new_divs n r w -> only_new_divs n r (step dateParse w e).
Proof.
  intros (Hdivs & Hsink & l & Hr & Hl).
  destruct (step_shape w e) as (w1 & Hstep & Hr1 & Hs).
  assert (H1 : only_new_divs n r w1).
  { destruct (is_connect e).
    - destruct Hs as [Hs Hd]. split; [lia |]. split.
      + intros d Hd'. rewrite Hs in Hd'. inversion Hd'. lia.
      + exists l. now rewrite Hr1.
    - destruct Hs as [Hs Hd]. split; [lia |]. split.
      + intros d Hd'. destruct Hs as [Hs | Hs]; rewrite Hs in Hd';
          [now apply Hsink | discriminate].
      + exists l. now rewrite Hr1. }
  destruct Hstep as [-> | [start ->]]; [exact H1 |].
  now apply nextTick_only_new_divs.
Qed.

Lemma run_only_new_divs (n : nat) (r : list (nat * string)) (evs : list event) (w : world) :
  only_new_divs n r w -> only_new_divs n r (run dateParse evs w).
Proof.
  revert w. induction evs as [| e evs IH]; intros w H; [exact H |].
  cbn [run fold_left]. apply IH. now apply step_only_new_divs.
Qed.

(** C4.  After [disconnectedCallback], as long as the element is not
    connected again, nothing is rendered: whatever else happens - stale
    timers firing, assignments to the target, attribute changes, direct
    ticks - the list of rendered texts is the one from before the
    disconnect, and a tick in the resulting state changes nothing at all.
    Even across later connects, no text ever goes to a div that existed at
    the disconnect. *)
Theorem no_render_after_disconnect (w : world) (evs : list event) :
  let w' := run dateParse evs (disconnectedCallback w) in
  (existsb is_connect evs = false ->
     rendered w' = rendered w /\ forall start, nextTick start w' = w')
  /\ (exists l, rendered w' = (rendered w ++ l)%list
                /\ Forall (fun p => (divs w <= fst p)%nat) l).
Proof.
  cbv zeta. destruct (disconnectedCallback_frame w) as (Hs & Hd & Hr).
  split.
  - intros Hevs.
    destruct (run_unbound evs (disconnectedCallback w) Hevs Hs) as [Hs' Hr'].
    split; [congruence |].
    intros start. now apply nextTick_unbound.
  - assert (H0 : only_new_divs (divs w) (rendered w) (disconnectedCallback w)).
    { split; [lia |]. split; [intros d Hd'; congruence |].
      exists []. rewrite app_nil_r. auto. }
    destruct (run_only_new_divs _ _ evs _ H0) as (_ & _ & l & Hl & HF).
    now exists l.
Qed.

End AfterDisconnect.

Lemma no_render_after_disconnect_witness :
  let w := run sampleDateParse [Connected 1500; SetTarget (Num (Fin 90000)) 1600] construct in
  let evs := [TimerFired 1%nat 1700; SetTarget (Num (Fin 95000)) 1800;
              TimerFired 2%nat 1900; TickCalled 2000] in
  existsb is_connect evs = false
  /\ map fst (pending (disconnectedCallback w)) = [1%nat; 2%nat]
  /\ rendered (run sampleDateParse evs (disconnectedCallback w)) = rendered w.
Proof.
  cbv zeta. split; [reflexivity |]. split; [vm_compute; reflexivity |].
  exact (proj1 (proj1 (no_render_after_disconnect sampleDateParse
    (run sampleDateParse [Connected 1500; SetTarget (Num (Fin 90000)) 1600] construct)
    [TimerFired 1%nat 1700; SetTarget (Num (Fin 95000)) 1800;
     TimerFired 2%nat 1900; TickCalled 2000]) eq_refl)).
Defined.

(** ** The setter's normalisation *)

Section Normalisation.

Variable dateParse : string -> num.

Lemma set_targetTimestamp_stores (v : val) (start : Z) (w : world) :
  _targetTimestamp (set_targetTimestamp dateParse v start w) = normalize dateParse v.
Proof.
  unfold set_targetTimestamp. cbv zeta.
  match goal with
  | |- context [nextTick start ?x] =>
      destruct (nextTick_fields start x) as (_ & _ & Ht & _ & _)
  end.
  rewrite Ht.
  match goal with
  | |- context [if timer_truthy (_tickTimer ?x) then _ else _] =>
      destruct (guard_frame x) as (_ & _ & _ & Hg)
  end.
  cbv zeta in Hg. rewrite Hg. reflexivity.
Qed.

Lemma set_targetTimestamp_readme_stores (v : val) (start : Z) (w : world) :
  _targetTimestamp (set_targetTimestamp_readme dateParse v start w)
  = normalize_readme dateParse v.
Proof.
  unfold set_targetTimestamp_readme. cbv zeta.
  match goal with
  | |- context [nextTick start ?x] =>
      destruct (nextTick_fields start x) as (_ & _ & Ht & _ & _)
  end.
  rewrite Ht.
  match goal with
  | |- context [if timer_truthy (_tickTimer ?x) then _ else _] =>
      destruct (guard_frame x) as (_ & _ & _ & Hg)
  end.
  cbv zeta in Hg. rewrite Hg. reflexivity.
Qed.

(** C8.  The setter stores the normalised input, and the normalisation is
    the one documented for the accepted input forms: null and undefined
    (and every other input for which [!timestamp] holds) normalise to the
    unset value 0; a string is converted by the host's date parser - any
    non-empty string, and in particular, the empty string not being a date
    for the host, every string that parses to an instant [t] is stored as
    [t]; an integer timestamp is stored as it is. *)
Theorem set_targetTimestamp_normalizes (v : val) (start : Z) (w : world) :
  _targetTimestamp (set_targetTimestamp dateParse v start w) = normalize dateParse v
  /\ normalize dateParse Null = Num (Fin 0)
  /\ normalize dateParse Undefined = Num (Fin 0)
  /\ (truthy v = false -> normalize dateParse v = Num (Fin 0))
  /\ (forall s, s <> "" -> normalize dateParse (Str s) = Num (dateParse s))
  /\ (dateParse "" = NaN ->
      forall s t, dateParse s = Fin t -> normalize dateParse (Str s) = Num (Fin t))
  /\ (forall z, normalize dateParse (Num (Fin z)) = Num (Fin z)).
Proof.
  assert (Hstr : forall s, s <> "" -> normalize dateParse (Str s) = Num (dateParse s)).
  { intros s Hs. unfold normalize. cbn [truthy].
    rewrite (proj2 (String.eqb_neq s "") Hs). reflexivity. }
  split; [apply set_targetTimestamp_stores |].
  split; [reflexivity |]. split; [reflexivity |].
  split; [| split; [exact Hstr | split]].
  - intros Hv. unfold normalize. now rewrite Hv.
  - intros Hempty s t Hparse. rewrite Hstr; [now rewrite Hparse |].
    intros ->. congruence.
  - intros z. unfold normalize. cbn [truthy].
    destruct (Z.eqb_spec z 0) as [-> | Hz]; reflexivity.
Qed.

(** On the number 0 the two copies of the setter take different branches
    and store the same value. *)
Lemma setter_copies_agree_on_zero :
  normalize dateParse (Num (Fin 0)) = normalize_readme dateParse (Num (Fin 0)).
Proof. reflexivity. Qed.

(** C9.  The setter of component.js and the copy in README.md are not the
    same function: where the host's date parser does not read the empty
    string as the epoch, there is an input among the number 0 and the empty
    string - the empty string - for which they store different targets.
    The first copy takes its "unset" branch on both inputs, the second on
    neither. *)
Theorem setter_copies_differ (start : Z) (w : world)
    (Hempty : dateParse "" <> Fin 0) :
  (exists v, (v = Num (Fin 0) \/ v = Str "")
             /\ _targetTimestamp (set_targetTimestamp dateParse v start w)
                <> _targetTimestamp (set_targetTimestamp_readme dateParse v start w))
  /\ _targetTimestamp (set_targetTimestamp dateParse (Str "") start w) = Num (Fin 0)
  /\ _targetTimestamp (set_targetTimestamp_readme dateParse (Str "") start w)
     = Num (dateParse "")
  /\ (truthy (Num (Fin 0)) = false /\ truthy (Str "") = false)
  /\ (is_null (Num (Fin 0)) = false /\ is_null (Str "") = false).
Proof.
  assert (H1 : _targetTimestamp (set_targetTimestamp dateParse (Str "") start w)
               = Num (Fin 0))
    by (rewrite set_targetTimestamp_stores; reflexivity).
  assert (H2 : _targetTimestamp (set_targetTimestamp_readme dateParse (Str "") start w)
               = Num (dateParse ""))
    by (rewrite set_targetTimestamp_readme_stores; reflexivity).
  split; [| repeat split; assumption].
  exists (Str ""). split; [now right |].
  rewrite H1, H2. intros Heq. apply Hempty. now inversion Heq.
Qed.

End Normalisation.

Lemma setter_copies_differ_witness :
  sampleDateParse "" <> Fin 0
  /\ _targetTimestamp (set_targetTimestamp sampleDateParse (Str "") 1000 construct)
     = Num (Fin 0)
  /\ _targetTimestamp (set_targetTimestamp_readme sampleDateParse (Str "") 1000 construct)
     = Num NaN.
Proof.
  assert (H : sampleDateParse "" <> Fin 0) by (vm_compute; discriminate).
  split; [exact H |].
  destruct (setter_copies_differ sampleDateParse 1000 construct H)
    as (_ & H1 & H2 & _).
  split; [exact H1 | exact H2].
Defined.

Lemma set_targetTimestamp_normalizes_witness :
  sampleDateParse "" = NaN
  /\ sampleDateParse "10/12/2022" = Fin 1665532800000
  /\ normalize sampleDateParse (Str "10/12/2022") = Num (Fin 1665532800000)
  /\ _targetTimestamp
       (set_targetTimestamp sampleDateParse (Str "10/12/2022") 1000 construct)
     = Num (Fin 1665532800000).
Proof.
  assert (H0 : sampleDateParse "" = NaN) by reflexivity.
  assert (H1 : sampleDateParse "10/12/2022" = Fin 1665532800000) by reflexivity.
  destruct (set_targetTimestamp_normalizes sampleDateParse (Str "10/12/2022")
              1000 construct) as (Hst & _ & _ & _ & _ & Hparse & _).
  pose proof (Hparse H0 "10/12/2022" 1665532800000 H1) as H2.
  split; [exact H0 |]. split; [exact H1 |]. split; [exact H2 |].
  rewrite Hst. exact H2.
Defined.

(** Two inputs outside the documented forms, both caught by [!timestamp]:
    the empty string is not handed to the date parser and the number [NaN]
    is not kept; for either the setter stores 0. *)
Lemma set_targetTimestamp_empty_string_not_parsed :
  _targetTimestamp (set_targetTimestamp sampleDateParse (Str "") 1000 construct)
    <> Num (sampleDateParse "")
  /\ _targetTimestamp (set_targetTimestamp sampleDateParse (Num NaN) 1000 construct)
    <> Num NaN.
Proof. split; vm_compute; discriminate. Qed.

(** * Further properties of the class *)

(** ** The formatter beyond whole, non-negative seconds *)

(** One unit on a duration split into whole seconds [q] and a sub-second
    rest [r]: the rest takes no part in the quotient and is handed on
    unchanged. *)
Lemma scaled_step (q r c : Z) :
  0 <= r < 1000 -> 0 < c ->
  (1000 * q + r) / (1000 * c) = q / c
  /\ (1000 * q + r) - q / c * (1000 * c) = 1000 * (q mod c) + r.
Proof.
  intros Hr Hc.
  pose proof (Z.div_mod q c ltac:(lia)) as Hq.
  pose proof (Z.mod_pos_bound q c Hc) as Hm.
  split.
  - symmetry. apply (Z.div_unique _ _ _ (1000 * (q mod c) + r)); [left |]; nia.
  - nia.
Qed.

(** The components in closed form: they are read off the whole seconds. *)
Lemma decompose_whole_seconds (q r : Z) :
  0 <= r < 1000 ->
  decompose (Fin (1000 * q + r)) =
  mkBreakdown
    (Fin (q / 31536000))
    (Fin (q mod 31536000 / 2419200))
    (Fin (q mod 31536000 mod 2419200 / 86400))
    (Fin (q mod 31536000 mod 2419200 mod 86400 / 3600))
    (Fin (q mod 31536000 mod 2419200 mod 86400 mod 3600 / 60))
    (Fin (q mod 31536000 mod 2419200 mod 86400 mod 3600 mod 60))
    (Fin r).
Proof.
  intros Hr. unfold decompose. cbv zeta. cbn [floor_div mul sub].
  change MS_YEAR with (1000 * 31536000).
  change MS_MONTH with (1000 * 2419200).
  change MS_DAY with (1000 * 86400).
  change MS_HOUR with (1000 * 3600).
  change MS_MINUTE with (1000 * 60).
  change MS_SECOND with (1000 * 1).
  destruct (scaled_step q r 31536000 Hr ltac:(lia)) as [E1 R1]. rewrite E1, R1.
  destruct (scaled_step (q mod 31536000) r 2419200 Hr ltac:(lia)) as [E2 R2].
  rewrite E2, R2.
  destruct (scaled_step (q mod 31536000 mod 2419200) r 86400 Hr ltac:(lia))
    as [E3 R3].
  rewrite E3, R3.
  destruct (scaled_step (q mod 31536000 mod 2419200 mod 86400) r 3600 Hr ltac:(lia))
    as [E4 R4].
  rewrite E4, R4.
  destruct (scaled_step (q mod 31536000 mod 2419200 mod 86400 mod 3600) r 60 Hr
              ltac:(lia)) as [E5 R5].
  rewrite E5, R5.
  destruct (scaled_step (q mod 31536000 mod 2419200 mod 86400 mod 3600 mod 60) r 1 Hr
              ltac:(lia)) as [E6 R6].
  rewrite E6, R6.
  rewrite Z.div_1_r, Z.mod_1_r, Z.mul_0_r, Z.add_0_l. reflexivity.
Qed.

(** The text depends on the six segments only. *)
Lemma timeMsDiffToString_segments (a b : num) :
  formatTime (years (decompose a)) "year" false
    = formatTime (years (decompose b)) "year" false ->
  months (decompose a) = months (decompose b) ->
  days (decompose a) = days (decompose b) ->
  hours (decompose a) = hours (decompose b) ->
  minutes (decompose a) = minutes (decompose b) ->
  seconds (decompose a) = seconds (decompose b) ->
  timeMsDiffToString a = timeMsDiffToString b.
Proof.
  intros Hy Hmo Hd Hh Hmi Hs. unfold timeMsDiffToString. cbv zeta.
  now rewrite Hy, Hmo, Hd, Hh, Hmi, Hs.
Qed.

(** X1.  The formatter rounds down to whole seconds: a duration (an
    integer up to [MAX_SAFE_INTEGER] in magnitude) and the same duration
    with its sub-second part removed give the same text. *)
Theorem timeMsDiffToString_ignores_subseconds (ms : Z)
    (Hsafe : - MAX_SAFE_INTEGER <= ms <= MAX_SAFE_INTEGER) :
  timeMsDiffToString (Fin ms) = timeMsDiffToString (Fin (1000 * (ms / 1000))).
Proof.
  pose proof (Z.div_mod ms 1000 ltac:(lia)) as Hms.
  pose proof (Z.mod_pos_bound ms 1000 ltac:(lia)) as Hr.
  pose proof (decompose_whole_seconds (ms / 1000) (ms mod 1000) Hr) as Ha.
  pose proof (decompose_whole_seconds (ms / 1000) 0 ltac:(lia)) as Hb.
  rewrite <- Hms in Ha. rewrite Z.add_0_r in Hb.
  apply timeMsDiffToString_segments; rewrite Ha, Hb; reflexivity.
Qed.

Lemma timeMsDiffToString_ignores_subseconds_witness :
  - MAX_SAFE_INTEGER <= 61999 <= MAX_SAFE_INTEGER
  /\ timeMsDiffToString (Fin 61999) = timeMsDiffToString (Fin 61000).
Proof.
  assert (H : - MAX_SAFE_INTEGER <= 61999 <= MAX_SAFE_INTEGER)
    by (unfold MAX_SAFE_INTEGER; lia).
  split; [exact H |].
  exact (timeMsDiffToString_ignores_subseconds 61999 H).
Defined.

(** Any duration below one second, zero included, reads "0 seconds". *)
Lemma below_one_second_text (ms : Z) (Hms : 0 <= ms < 1000) :
  timeMsDiffToString (Fin ms) = "0 seconds".
Proof.
  pose proof (decompose_whole_seconds 0 ms Hms) as Ha.
  change (1000 * 0 + ms) with ms in Ha.
  transitivity (timeMsDiffToString (Fin 0)); [| vm_compute; reflexivity].
  apply timeMsDiffToString_segments; rewrite Ha; reflexivity.
Qed.

(** X2.  During the last second before the target the element does not
    yet show the elapsed text: with a bound sink and an integer target less
    than a second ahead, the tick renders "0 seconds". *)
Theorem last_second_renders_zero_seconds (w : world) (d : nat) (t start : Z)
    (Hsink : _countdownDescElement w = Some d)
    (Htarget : _targetTimestamp w = Num (Fin t))
    (Hlast : 0 < t - start < 1000) :
  rendered (nextTick start w) = (rendered w ++ [(d, "0 seconds")])%list.
Proof.
  rewrite (nextTick_bound start w d Hsink). cbv zeta. cbn [rendered].
  rewrite Htarget. cbn [to_number sub le0].
  destruct (Z.leb_spec (t - start) 0) as [Hle | _]; [lia |].
  rewrite below_one_second_text by lia. reflexivity.
Qed.

Lemma last_second_renders_zero_seconds_witness :
  rendered (nextTick 1500 (with_target (Num (Fin 2000)) (with_desc (Some 0%nat) construct)))
  = [(0%nat, "0 seconds")].
Proof.
  exact (last_second_renders_zero_seconds
           (with_target (Num (Fin 2000)) (with_desc (Some 0%nat) construct))
           0%nat 2000 1500 eq_refl eq_refl ltac:(lia)).
Defined.

(** X3.  Whatever the input - negative and [NaN] included - the text ends
    with the seconds segment, "<seconds> second" with an "s" unless the
    value is 1; so the text is never empty and never ends with a
    separator left over from an omitted unit. *)
Theorem timeMsDiffToString_ends_with_seconds (ms : num) :
  exists front : string,
    timeMsDiffToString ms
    = (front ++ to_string (seconds (decompose ms)) ++ " second"
             ++ (if neq1 (seconds (decompose ms)) then "s" else ""))%string.
Proof.
  exists (formatTime (years (decompose ms)) "year" false ++
          formatTime (months (decompose ms)) "month" false ++
          formatTime (days (decompose ms)) "day" false ++
          formatTime (hours (decompose ms)) "hour" false ++
          formatTime (minutes (decompose ms)) "minute" false)%string.
  unfold timeMsDiffToString. cbv zeta.
  set (sec := seconds (decompose ms)).
  assert (Hsec : formatTime sec "second" true
                 = ((to_string sec ++ " second" ++ (if neq1 sec then "s" else ""))
                      ++ ", ")%string).
  { unfold formatTime. rewrite orb_true_r.
    change (" " ++ "second" ++ (if neq1 sec then "s" else "") ++ ", ")%string
      with (" second" ++ (if neq1 sec then "s" else "") ++ ", ")%string.
    now rewrite !append_assoc. }
  rewrite Hsec.
  rewrite <- !append_assoc. rewrite strip_separator.
  now rewrite !append_assoc.
Qed.

(** X4.  A negative duration (an integer down to [- MAX_SAFE_INTEGER]) is
    not refused: the year count is negative and therefore not shown, and
    the text is that of the duration brought back into one year,
    [ms mod MS_YEAR]. *)
Theorem timeMsDiffToString_negative (ms : Z)
    (Hneg : ms < 0) (Hsafe : - MAX_SAFE_INTEGER <= ms) :
  timeMsDiffToString (Fin ms) = timeMsDiffToString (Fin (ms mod MS_YEAR))
  /\ formatTime (years (decompose (Fin ms))) "year" false = "".
Proof.
  assert (HY : 0 < MS_YEAR) by reflexivity.
  pose proof (Z.mod_pos_bound ms MS_YEAR HY) as Hm.
  pose proof (Z.div_mod ms MS_YEAR ltac:(lia)) as Hd.
  assert (Hq : ms / MS_YEAR < 0) by (apply Z.div_lt_upper_bound; lia).
  assert (Hr1 : ms - ms / MS_YEAR * MS_YEAR = ms mod MS_YEAR) by lia.
  assert (Hr2 : ms mod MS_YEAR - ms mod MS_YEAR / MS_YEAR * MS_YEAR = ms mod MS_YEAR)
    by (rewrite Z.div_small by lia; lia).
  assert (Hyear : formatTime (years (decompose (Fin ms))) "year" false = "").
  { unfold decompose. cbv zeta. cbn [years floor_div]. unfold formatTime.
    cbn [gt0]. destruct (Z.ltb_spec 0 (ms / MS_YEAR)) as [Hpos | _]; [lia |].
    reflexivity. }
  split; [| exact Hyear].
  apply timeMsDiffToString_segments.
  - rewrite Hyear. unfold decompose. cbv zeta. cbn [years floor_div].
    rewrite Z.div_small by lia. reflexivity.
  - unfold decompose. cbv zeta. cbn [months floor_div mul sub]. now rewrite Hr1, Hr2.
  - unfold decompose. cbv zeta. cbn [days floor_div mul sub]. now rewrite Hr1, Hr2.
  - unfold decompose. cbv zeta. cbn [hours floor_div mul sub]. now rewrite Hr1, Hr2.
  - unfold decompose. cbv zeta. cbn [minutes floor_div mul sub]. now rewrite Hr1, Hr2.
  - unfold decompose. cbv zeta. cbn [seconds floor_div mul sub]. now rewrite Hr1, Hr2.
Qed.

Lemma timeMsDiffToString_negative_witness :
  -1 < 0 /\ - MAX_SAFE_INTEGER <= -1 /\
  timeMsDiffToString (Fin (-1)) = timeMsDiffToString (Fin (31536000000 - 1)).
Proof.
  split; [lia |]. split; [unfold MAX_SAFE_INTEGER; lia |].
  exact (proj1 (timeMsDiffToString_negative (-1) ltac:(lia)
                  ltac:(unfold MAX_SAFE_INTEGER; lia))).
Defined.

(** ** The lifecycle hooks *)

Section Lifecycle.

Variable dateParse : string -> num.

Lemma nextTick_rendered_bound (start : Z) (w : world) (d : nat) :
  _countdownDescElement w = Some d ->
  rendered (nextTick start w)
  = (rendered w ++ [(d, tick_text (_targetTimestamp w) start)])%list.
Proof. intros H. now rewrite (nextTick_bound start w d H). Qed.

(** The setter is a tick on a world that differs from the given one in the
    stored target, and in the timers if the guard fires. *)
Lemma setter_shape (v : val) (start : Z) (w : world) :
  exists g,
    set_targetTimestamp dateParse v start w = nextTick start g
    /\ _countdownDescElement g = _countdownDescElement w
    /\ divs g = divs w
    /\ rendered g = rendered w
    /\ _targetTimestamp g = normalize dateParse v.
Proof.
  unfold set_targetTimestamp. cbv zeta. eexists. split; [reflexivity |].
  match goal with
  | |- context [if timer_truthy (_tickTimer ?x) then _ else _] =>
      destruct (guard_frame x) as (Hs & Hd & Hr & Hg)
  end.
  cbv zeta in Hs, Hd, Hr, Hg. rewrite Hs, Hd, Hr, Hg. simpl. auto.
Qed.

Lemma setter_bound (v : val) (start : Z) (w : world) (d : nat) :
  _countdownDescElement w = Some d ->
  rendered (set_targetTimestamp dateParse v start w)
  = (rendered w ++ [(d, tick_text (normalize dateParse v) start)])%list.
Proof.
  intros H. destruct (setter_shape v start w) as (g & -> & Hs & _ & Hr & Hg).
  rewrite (nextTick_rendered_bound start g d) by congruence.
  now rewrite Hr, Hg.
Qed.

Lemma setter_unbound (v : val) (start : Z) (w : world) :
  _countdownDescElement w = None ->
  rendered (set_targetTimestamp dateParse v start w) = rendered w
  /\ _countdownDescElement (set_targetTimestamp dateParse v start w) = None
  /\ divs (set_targetTimestamp dateParse v start w) = divs w.
Proof.
  intros H. destruct (setter_shape v start w) as (g & -> & Hs & Hd & Hr & _).
  rewrite nextTick_unbound by congruence. rewrite Hs, Hd, Hr. auto.
Qed.

Lemma connectedCallback_effect (start : Z) (w : world) :
  _countdownDescElement (connectedCallback dateParse start w) = Some (divs w)
  /\ divs (connectedCallback dateParse start w) = S (divs w)
  /\ _targetTimestamp (connectedCallback dateParse start w)
     = normalize dateParse (_targetTimestamp w)
  /\ rendered (connectedCallback dateParse start w)
     = (rendered w
        ++ [(divs w, tick_text (normalize dateParse (_targetTimestamp w)) start)])%list.
Proof.
  unfold connectedCallback, createElement.
  match goal with
  | |- context [set_targetTimestamp dateParse ?v start ?x] =>
      destruct (setter_shape v start x) as (g & Hset & Hs & Hd & Hr & Hg);
      pose proof (setter_bound v start x (divs w) eq_refl) as Hb
  end.
  rewrite Hb. rewrite Hset.
  destruct (nextTick_fields start g) as (Fs & _ & Ft & Fd & _).
  rewrite Fs, Ft, Fd, Hs, Hd, Hg. simpl. auto.
Qed.

Lemma tick_text_elapsed (start : Z) :
  0 <= start -> tick_text (Num (Fin 0)) start = "Already elapsed!".
Proof.
  intros H. unfold tick_text. cbn [to_number sub le0].
  destruct (Z.leb_spec (0 - start) 0); [reflexivity | lia].
Qed.

(** X5.  An observed attribute changed, on a connected element, to a date
    the host parses to a later instant [t]: the element renders the
    formatter's text for [t - start] at once. *)
Theorem attribute_renders_countdown
    (oldValue : val) (s : string) (t start : Z) (w : world) (d : nat)
    (Hsink : _countdownDescElement w = Some d)
    (Hs : s <> "")
    (Hparse : dateParse s = Fin t)
    (Hlater : start < t) :
  rendered (attributeChangedCallback dateParse "target-timestamp" oldValue (Str s) start w)
  = (rendered w ++ [(d, timeMsDiffToString (Fin (t - start)))])%list.
Proof.
  unfold attributeChangedCallback. cbn [String.eqb Ascii.eqb Bool.eqb andb].
  rewrite (setter_bound (Str s) start w d Hsink).
  unfold normalize. cbn [truthy].
  rewrite (proj2 (String.eqb_neq s "") Hs). cbn [negb]. rewrite Hparse.
  unfold tick_text. cbn [to_number sub le0].
  destruct (Z.leb_spec (t - start) 0); [lia | reflexivity].
Qed.

(** X6.  A string the host cannot parse, assigned while the element is
    connected, is neither refused nor shown as elapsed: the element renders
    "NaN seconds". *)
Theorem invalid_date_renders_NaN_seconds
    (s : string) (start : Z) (w : world) (d : nat)
    (Hsink : _countdownDescElement w = Some d)
    (Hs : s <> "")
    (Hparse : dateParse s = NaN) :
  rendered (set_targetTimestamp dateParse (Str s) start w)
  = (rendered w ++ [(d, "NaN seconds")])%list
  /\ get_targetTimestamp (set_targetTimestamp dateParse (Str s) start w) = Num NaN.
Proof.
  split.
  - rewrite (setter_bound (Str s) start w d Hsink).
    unfold normalize. cbn [truthy].
    rewrite (proj2 (String.eqb_neq s "") Hs). cbn [negb]. rewrite Hparse.
    reflexivity.
  - unfold get_targetTimestamp.
    destruct (setter_shape (Str s) start w) as (g & -> & _ & _ & _ & Hg).
    destruct (nextTick_fields start g) as (_ & _ & Ft & _ & _). rewrite Ft, Hg.
    unfold normalize. cbn [truthy].
    rewrite (proj2 (String.eqb_neq s "") Hs). cbn [negb]. now rewrite Hparse.
Qed.

(** X7.  The same unparseable attribute met before the element is
    connected gives another text: the stored [NaN] goes through the setter
    again on connect, where [!timestamp] turns it into 0, and the element
    renders "Already elapsed!". *)
Theorem invalid_date_before_connect_renders_elapsed
    (oldValue : val) (s : string) (start start' : Z) (w : world)
    (Hsink : _countdownDescElement w = None)
    (Hs : s <> "")
    (Hparse : dateParse s = NaN)
    (Hclock : 0 <= start') :
  let w1 := attributeChangedCallback dateParse "target-timestamp" oldValue (Str s) start w in
  rendered w1 = rendered w
  /\ get_targetTimestamp w1 = Num NaN
  /\ rendered (connectedCallback dateParse start' w1)
     = (rendered w ++ [(divs w, "Already elapsed!")])%list
  /\ get_targetTimestamp (connectedCallback dateParse start' w1) = Num (Fin 0).
Proof.
  cbv zeta. unfold attributeChangedCallback, get_targetTimestamp.
  cbn [String.eqb Ascii.eqb Bool.eqb andb].
  destruct (setter_unbound (Str s) start w Hsink) as (Hr & Hs1 & Hd).
  assert (Ht : _targetTimestamp (set_targetTimestamp dateParse (Str s) start w) = Num NaN).
  { destruct (setter_shape (Str s) start w) as (g & -> & _ & _ & _ & Hg).
    destruct (nextTick_fields start g) as (_ & _ & Ft & _ & _). rewrite Ft, Hg.
    unfold normalize. cbn [truthy].
    rewrite (proj2 (String.eqb_neq s "") Hs). cbn [negb]. now rewrite Hparse. }
  destruct (connectedCallback_effect start' (set_targetTimestamp dateParse (Str s) start w))
    as (_ & _ & Ct & Cr).
  rewrite Cr, Ct, Ht, Hr, Hd.
  change (normalize dateParse (Num NaN)) with (Num (Fin 0)).
  rewrite tick_text_elapsed by exact Hclock. auto.
Qed.

(** X8.  What a connect does, in any state: it creates one more div, binds
    it as the sink, passes the stored target through the setter again, and
    renders exactly one text, into the new div. *)
Theorem connectedCallback_binds_new_div (start : Z) (w : world) :
  _countdownDescElement (connectedCallback dateParse start w) = Some (divs w)
  /\ divs (connectedCallback dateParse start w) = S (divs w)
  /\ get_targetTimestamp (connectedCallback dateParse start w)
     = normalize dateParse (get_targetTimestamp w)
  /\ exists text,
       rendered (connectedCallback dateParse start w)
       = (rendered w ++ [(divs w, text)])%list.
Proof.
  destruct (connectedCallback_effect start w) as (Hs & Hd & Ht & Hr).
  unfold get_targetTimestamp. repeat split; try assumption.
  eexists. exact Hr.
Qed.

(** X9.  Passing a value through the setter's normalisation twice is the
    same as once, except for a string that parsed to [NaN]: the second
    pass turns the stored [NaN] into 0.  A third pass changes nothing. *)
Theorem normalize_twice (v : val) :
  normalize dateParse (normalize dateParse v)
  = (match normalize dateParse v with
     | Num NaN => Num (Fin 0)
     | n => n
     end)
  /\ normalize dateParse (normalize dateParse (normalize dateParse v))
     = normalize dateParse (normalize dateParse v).
Proof.
  assert (H : forall n, normalize dateParse (Num n)
                        = match n with NaN => Num (Fin 0) | Fin z => Num (Fin z) end).
  { intros [z |]; [| reflexivity]. unfold normalize. cbn [truthy].
    destruct (Z.eqb_spec z 0) as [-> | Hz]; reflexivity. }
  destruct v as [| | [|] | n | s].
  - split; reflexivity.
  - split; reflexivity.
  - split; reflexivity.
  - split; reflexivity.
  - rewrite !H. destruct n; rewrite ?H; split; reflexivity.
  - assert (E : normalize dateParse (Str s)
                = if String.eqb s "" then Num (Fin 0) else Num (dateParse s)).
    { unfold normalize. cbn [truthy]. destruct (String.eqb s ""); reflexivity. }
    rewrite E. destruct (String.eqb s "").
    + split; reflexivity.
    + rewrite !H. destruct (dateParse s); rewrite ?H; split; reflexivity.
Qed.

End Lifecycle.

Lemma attribute_renders_countdown_witness :
  rendered (attributeChangedCallback sampleDateParse "target-timestamp" Null
              (Str "10/12/2022") 1665532739000
              (with_desc (Some 0%nat) construct))
  = [(0%nat, "1 minute, 1 second")].
Proof.
  exact (attribute_renders_countdown sampleDateParse Null "10/12/2022"
           1665532800000 1665532739000 (with_desc (Some 0%nat) construct) 0%nat
           eq_refl ltac:(discriminate) eq_refl ltac:(lia)).
Defined.

Lemma invalid_date_renders_NaN_seconds_witness :
  rendered (set_targetTimestamp sampleDateParse (Str "soon") 1000
              (with_desc (Some 0%nat) construct))
  = [(0%nat, "NaN seconds")].
Proof.
  exact (proj1 (invalid_date_renders_NaN_seconds sampleDateParse "soon" 1000
                  (with_desc (Some 0%nat) construct) 0%nat
                  eq_refl ltac:(discriminate) eq_refl)).
Defined.

Lemma invalid_date_before_connect_renders_elapsed_witness :
  rendered (connectedCallback sampleDateParse 2000
              (attributeChangedCallback sampleDateParse "target-timestamp" Null
                 (Str "soon") 1000 construct))
  = [(0%nat, "Already elapsed!")].
Proof.
  exact (proj1 (proj2 (proj2
           (invalid_date_before_connect_renders_elapsed sampleDateParse Null "soon"
              1000 2000 construct eq_refl ltac:(discriminate) eq_refl ltac:(lia))))).
Defined.

Section Reconnect.

Variable dateParse : string -> num.

Lemma disconnectedCallback_fields (w : world) :
  _countdownDescElement (disconnectedCallback w) = None
  /\ _tickTimer (disconnectedCallback w) = None
  /\ _targetTimestamp (disconnectedCallback w) = Null.
Proof. unfold disconnectedCallback. cbv zeta. simpl. auto. Qed.

(** X10.  A disconnect followed by a connect does not bring the countdown
    back: whatever target the element had, it is 0 afterwards, and (with
    the clock at or after the epoch) the new div shows "Already
    elapsed!". *)
Theorem reconnect_forgets_target (start : Z) (w : world) (Hclock : 0 <= start) :
  let w' := connectedCallback dateParse start (disconnectedCallback w) in
  get_targetTimestamp w' = Num (Fin 0)
  /\ rendered w' = (rendered w ++ [(divs w, "Already elapsed!")])%list.
Proof.
  cbv zeta. unfold get_targetTimestamp.
  destruct (connectedCallback_effect dateParse start (disconnectedCallback w))
    as (_ & _ & Ct & Cr).
  destruct (disconnectedCallback_fields w) as (_ & _ & Ht).
  destruct (disconnectedCallback_frame w) as (_ & Hd & Hr).
  rewrite Ct, Cr, Ht, Hd, Hr.
  change (normalize dateParse Null) with (Num (Fin 0)).
  now rewrite tick_text_elapsed by exact Hclock.
Qed.

(** X11.  [disconnectedCallback] leaves all three fields null, renders
    nothing, creates nothing, schedules nothing, and a second disconnect
    changes nothing more. *)
Theorem disconnectedCallback_idempotent (w : world) :
  disconnectedCallback (disconnectedCallback w) = disconnectedCallback w
  /\ _countdownDescElement (disconnectedCallback w) = None
  /\ _tickTimer (disconnectedCallback w) = None
  /\ get_targetTimestamp (disconnectedCallback w) = Null
  /\ rendered (disconnectedCallback w) = rendered w
  /\ divs (disconnectedCallback w) = divs w
  /\ next_handle (disconnectedCallback w) = next_handle w.
Proof.
  destruct (disconnectedCallback_fields w) as (Hs & Ht & Hg).
  destruct (disconnectedCallback_frame w) as (_ & Hd & Hr).
  split; [| repeat split; try assumption].
  - unfold disconnectedCallback at 1. rewrite Ht. cbv zeta. cbn [timer_truthy].
    unfold disconnectedCallback. cbv zeta.
    destruct (timer_truthy (_tickTimer w)); [destruct (_tickTimer w) |]; reflexivity.
  - unfold disconnectedCallback. cbv zeta.
    destruct (timer_truthy (_tickTimer w)); [destruct (_tickTimer w) |]; reflexivity.
Qed.

End Reconnect.

Lemma reconnect_forgets_target_witness :
  let w := run sampleDateParse [Connected 1000; SetTarget (Num (Fin 90000)) 1000] construct in
  0 <= 2000
  /\ get_targetTimestamp w = Num (Fin 90000)
  /\ get_targetTimestamp (connectedCallback sampleDateParse 2000 (disconnectedCallback w))
     = Num (Fin 0).
Proof.
  cbv zeta. split; [lia |]. split; [vm_compute; reflexivity |].
  exact (proj1 (reconnect_forgets_target sampleDateParse 2000
    (run sampleDateParse [Connected 1000; SetTarget (Num (Fin 90000)) 1000] construct)
    ltac:(lia))).
Defined.

(** ** The delay *)

Lemma tick_delay_formula (start : Z) : tick_delay start = start / 1000 + 1 - start.
Proof.
  unfold tick_delay. replace (start + 1000) with (start + 1 * 1000) by lia.
  rewrite Z.div_add by lia. reflexivity.
Qed.

(** X12.  From the first millisecond after the epoch on, the delay a tick
    hands to [setTimeout] is never positive: the next tick is asked for
    immediately, not at the next second. *)
Theorem nextTick_delay_nonpositive (start : Z) (w : world) (d : nat)
    (Hsink : _countdownDescElement w = Some d)
    (Hclock : 1 <= start) :
  pending (nextTick start w) = (pending w ++ [(next_handle w, tick_delay start)])%list
  /\ tick_delay start = start / 1000 + 1 - start
  /\ tick_delay start <= 0.
Proof.
  split; [exact (nextTick_delay start w d Hsink) |].
  split; [apply tick_delay_formula |].
  rewrite tick_delay_formula.
  pose proof (Z.div_mod start 1000 ltac:(lia)) as Hd.
  pose proof (Z.mod_pos_bound start 1000 ltac:(lia)) as Hm.
  lia.
Qed.

Lemma nextTick_delay_nonpositive_witness :
  1 <= 1665532739000
  /\ pending (nextTick 1665532739000 (with_desc (Some 0%nat) construct))
     = [(1%nat, -1663867206260)].
Proof.
  split; [lia |].
  exact (proj1 (nextTick_delay_nonpositive 1665532739000
                  (with_desc (Some 0%nat) construct) 0%nat eq_refl ltac:(lia))).
Defined.

(** ** Steps, case by case *)

Section Steps.

Variable dateParse : string -> num.

Lemma guard_timers (w : world) :
  let w' := if timer_truthy (_tickTimer w)
            then match _tickTimer w with Some h => clearTimeout h w | None => w end
            else w in
  _tickTimer w' = _tickTimer w
  /\ next_handle w' = next_handle w
  /\ (pending w' = pending w \/ exists h, pending w' = drop_timer h (pending w)).
Proof.
  cbv zeta. destruct (timer_truthy (_tickTimer w)); [| auto].
  destruct (_tickTimer w) as [h |] eqn:E; [| auto].
  simpl. rewrite E. repeat split. right. now exists h.
Qed.

(** A step leaves the world alone, or is the disconnect hook, or is a tick
    on a prepared world. *)
Lemma step_cases (w : world) (e : event) :
  (is_connect e = false /\ step dateParse w e = w)
  \/ (is_connect e = false /\ step dateParse w e = disconnectedCallback w)
  \/ exists start w1,
       step dateParse w e = nextTick start w1
       /\ rendered w1 = rendered w
       /\ next_handle w1 = next_handle w
       /\ (pending w1 = pending w \/ exists h, pending w1 = drop_timer h (pending w))
       /\ (_targetTimestamp w1 = _targetTimestamp w
           \/ exists v, _targetTimestamp w1 = normalize dateParse v)
       /\ (if is_connect e
           then _countdownDescElement w1 = Some (divs w) /\ divs w1 = S (divs w)
           else _countdownDescElement w1 = _countdownDescElement w /\ divs w1 = divs w).
Proof.
  assert (Hset : forall v start x,
            exists w1,
              set_targetTimestamp dateParse v start x = nextTick start w1
              /\ rendered w1 = rendered x
              /\ next_handle w1 = next_handle x
              /\ (pending w1 = pending x \/ exists h, pending w1 = drop_timer h (pending x))
              /\ _targetTimestamp w1 = normalize dateParse v
              /\ _countdownDescElement w1 = _countdownDescElement x
              /\ divs w1 = divs x).
  { intros v start x. unfold set_targetTimestamp. cbv zeta.
    eexists. split; [reflexivity |].
    match goal with
    | |- context [if timer_truthy (_tickTimer ?y) then _ else _] =>
        destruct (guard_frame y) as (Hs & Hd & Hr & Hg);
        destruct (guard_timers y) as (_ & Hn & Hp)
    end.
    cbv zeta in Hs, Hd, Hr, Hg, Hn, Hp.
    rewrite Hs, Hd, Hr, Hg, Hn. simpl. repeat split; auto. }
  destruct e as [start | | v start | name o n start | h start | start];
    cbn [step is_connect].
  - right. right. unfold connectedCallback, createElement.
    match goal with
    | |- context [set_targetTimestamp dateParse ?v start ?x] =>
        destruct (Hset v start x) as (w1 & E & Hr & Hn & Hp & Ht & Hs & Hd)
    end.
    exists start, w1. simpl in Hr, Hn, Hp, Hs, Hd.
    repeat split; eauto.
  - right. left. split; reflexivity.
  - right. right.
    destruct (Hset v start w) as (w1 & E & Hr & Hn & Hp & Ht & Hs & Hd).
    exists start, w1. repeat split; eauto.
  - unfold attributeChangedCallback.
    destruct (String.eqb name "target-timestamp"); [| left; split; reflexivity].
    right. right.
    destruct (Hset n start w) as (w1 & E & Hr & Hn & Hp & Ht & Hs & Hd).
    exists start, w1. repeat split; eauto.
  - unfold fire.
    destruct (existsb (fun p => Nat.eqb (fst p) h) (pending w));
      [| left; split; reflexivity].
    right. right. eexists start, _. split; [reflexivity |]. simpl.
    repeat split; eauto.
  - right. right. exists start, w. repeat split; auto.
Qed.

Lemma disconnectedCallback_timers (w : world) :
  next_handle (disconnectedCallback w) = next_handle w
  /\ (pending (disconnectedCallback w) = pending w
      \/ exists h, pending (disconnectedCallback w) = drop_timer h (pending w)).
Proof.
  unfold disconnectedCallback. cbv zeta.
  destruct (guard_timers w) as (_ & Hn & Hp). cbv zeta in Hn, Hp.
  cbn [with_timer with_desc with_target next_handle pending]. auto.
Qed.

(** *** A connected element always has a tick outstanding *)

Lemma nextTick_has_pending (start : Z) (w : world) :
  _countdownDescElement (nextTick start w) <> None -> pending (nextTick start w) <> [].
Proof.
  destruct (_countdownDescElement w) as [d |] eqn:E.
  - intros _. rewrite (nextTick_delay start w d E). now destruct (pending w).
  - rewrite (nextTick_unbound start w E). congruence.
Qed.

Lemma step_has_pending (w : world) (e : event) :
  (_countdownDescElement w <> None -> pending w <> []) ->
  _countdownDescElement (step dateParse w e) <> None ->
  pending (step dateParse w e) <> [].
Proof.
  intros IH.
  destruct (step_cases w e) as [[_ ->] | [[_ ->] | (start & w1 & -> & _)]].
  - exact IH.
  - destruct (disconnectedCallback_frame w) as (Hs & _). congruence.
  - apply nextTick_has_pending.
Qed.

(** X13.  The countdown cannot stall: after any history of a constructed
    element, if a sink is bound then at least one timer is outstanding. *)
Theorem connected_has_pending_timer (evs : list event) :
  _countdownDescElement (run dateParse evs construct) <> None ->
  pending (run dateParse evs construct) <> [].
Proof.
  assert (H : forall w, (_countdownDescElement w <> None -> pending w <> []) ->
                        _countdownDescElement (run dateParse evs w) <> None ->
                        pending (run dateParse evs w) <> []).
  { induction evs as [| e evs IH]; intros w Hw; [exact Hw |].
    cbn [run fold_left]. apply IH. now apply step_has_pending. }
  apply H. cbn. congruence.
Qed.

End Steps.

Lemma connected_has_pending_timer_witness :
  handles (run sampleDateParse
             [Connected 1000; TimerFired 1%nat 1001; TimerFired 2%nat 1002] construct)
  = [3%nat]
  /\ pending (run sampleDateParse
               [Connected 1000; TimerFired 1%nat 1001; TimerFired 2%nat 1002] construct)
     <> [].
Proof.
  split; [vm_compute; reflexivity |].
  apply (connected_has_pending_timer sampleDateParse
           [Connected 1000; TimerFired 1%nat 1001; TimerFired 2%nat 1002]).
  vm_compute. discriminate.
Defined.

(** ** Timers *)

Lemma drop_timer_In (h : nat) (p : nat * Z) (l : list (nat * Z)) :
  In p (drop_timer h l) <-> In p l /\ fst p <> h.
Proof.
  unfold drop_timer. rewrite filter_In.
  destruct (Nat.eqb_spec (fst p) h); cbn [negb]; intuition congruence.
Qed.

Lemma drop_timer_absent (h : nat) (l : list (nat * Z)) :
  ~ In h (map fst l) -> drop_timer h l = l.
Proof.
  induction l as [| p l IH]; intros Hn; [reflexivity |].
  cbn [map In] in Hn. unfold drop_timer in *. cbn [filter].
  destruct (Nat.eqb_spec (fst p) h) as [E | _]; cbn [negb].
  - exfalso. apply Hn. now left.
  - rewrite IH; [reflexivity | tauto].
Qed.

Lemma drop_timer_gone (h : nat) (l : list (nat * Z)) :
  ~ In h (map fst (drop_timer h l)).
Proof.
  intros Hin. apply in_map_iff in Hin. destruct Hin as (p & Hp & Hin).
  apply drop_timer_In in Hin. tauto.
Qed.

Lemma drop_timer_length (h : nat) (l : list (nat * Z)) :
  NoDup (map fst l) -> In h (map fst l) ->
  S (List.length (drop_timer h l)) = List.length l.
Proof.
  induction l as [| p l IH]; intros Hnd Hin; [destruct Hin |].
  cbn [map] in Hnd. inversion Hnd as [| x xs Hx Hnd']; subst.
  unfold drop_timer. cbn [filter].
  destruct (Nat.eqb_spec (fst p) h) as [E | Hne]; cbn [negb].
  - fold (drop_timer h l). rewrite drop_timer_absent by congruence. reflexivity.
  - fold (drop_timer h l). cbn [List.length]. f_equal. apply IH; [exact Hnd' |].
    destruct Hin as [Hin | Hin]; [congruence | exact Hin].
Qed.

Lemma drop_timer_wf (h n : nat) (l : list (nat * Z)) :
  NoDup (map fst l) -> Forall (fun k => (k < n)%nat) (map fst l) ->
  NoDup (map fst (drop_timer h l))
  /\ Forall (fun k => (k < n)%nat) (map fst (drop_timer h l)).
Proof.
  induction l as [| p l IH]; intros Hnd Hlt; [split; constructor |].
  cbn [map] in Hnd, Hlt.
  inversion Hnd as [| x xs Hx Hnd']; subst.
  inversion Hlt as [| y ys Hy Hlt']; subst.
  destruct (IH Hnd' Hlt') as [IH1 IH2].
  unfold drop_timer. cbn [filter].
  destruct (Nat.eqb_spec (fst p) h) as [E | Hne]; cbn [negb].
  - split; assumption.
  - fold (drop_timer h l). cbn [map]. split; constructor; try assumption.
    intros Hin. apply Hx. apply in_map_iff in Hin. destruct Hin as (q & Hq & Hin).
    apply drop_timer_In in Hin. apply in_map_iff. exists q. tauto.
Qed.

Lemma existsb_handle (h : nat) (l : list (nat * Z)) :
  existsb (fun p => Nat.eqb (fst p) h) l = true <-> In h (map fst l).
Proof.
  rewrite existsb_exists, in_map_iff. split.
  - intros (p & Hin & E). exists p. apply Nat.eqb_eq in E. auto.
  - intros (p & E & Hin). exists p. split; [exact Hin | now apply Nat.eqb_eq].
Qed.

Section Timers.

Variable dateParse : string -> num.

Lemma nextTick_timers_wf (start : Z) (w : world) :
  timers_wf w -> timers_wf (nextTick start w).
Proof.
  intros [Hnd Hlt]. destruct (_countdownDescElement w) as [d |] eqn:E.
  - rewrite (nextTick_bound start w d E). cbv zeta.
    unfold timers_wf, handles in *. cbn [pending next_handle].
    rewrite map_app. cbn [map fst]. split.
    + apply NoDup_app; [exact Hnd | constructor; [intros [] | constructor] |].
      intros a Hin [E' | []]. subst a.
      rewrite Forall_forall in Hlt. specialize (Hlt _ Hin). lia.
    + apply Forall_app. split.
      * eapply Forall_impl; [| exact Hlt]. cbv beta. intros; lia.
      * constructor; [lia | constructor].
  - now rewrite (nextTick_unbound start w E).
Qed.

Lemma prepared_timers_wf (w w1 : world) :
  timers_wf w ->
  next_handle w1 = next_handle w ->
  (pending w1 = pending w \/ exists h, pending w1 = drop_timer h (pending w)) ->
  timers_wf w1.
Proof.
  intros [Hnd Hlt] Hn Hp. unfold timers_wf, handles in *. rewrite Hn.
  destruct Hp as [-> | [h ->]]; [auto |].
  now apply drop_timer_wf.
Qed.

Lemma step_timers_wf (w : world) (e : event) :
  timers_wf w -> timers_wf (step dateParse w e).
Proof.
  intros Hw.
  destruct (step_cases dateParse w e)
    as [[_ ->] | [[_ ->] | (start & w1 & -> & _ & Hn & Hp & _)]].
  - exact Hw.
  - destruct (disconnectedCallback_timers w) as [Hn Hp].
    now apply (prepared_timers_wf w).
  - apply nextTick_timers_wf. now apply (prepared_timers_wf w).
Qed.

Lemma run_timers_wf (evs : list event) (w : world) :
  timers_wf w -> timers_wf (run dateParse evs w).
Proof.
  revert w. induction evs as [| e evs IH]; intros w Hw; [exact Hw |].
  cbn [run fold_left]. apply IH. now apply step_timers_wf.
Qed.

Lemma construct_timers_wf : timers_wf construct.
Proof. split; constructor. Qed.

(** X14.  On a connected element every timer that fires is replaced by
    exactly one new timer: the fired handle is gone, the handle handed out
    next is outstanding, and the number of outstanding timers is what it
    was.  Stated for every state a constructed element can reach. *)
Theorem fire_rearms (evs : list event) (h : nat) (start : Z) (d : nat) :
  let w := run dateParse evs construct in
  _countdownDescElement w = Some d ->
  In h (handles w) ->
  pending (fire h start w)
  = (drop_timer h (pending w) ++ [(next_handle w, tick_delay start)])%list
  /\ List.length (pending (fire h start w)) = List.length (pending w)
  /\ ~ In h (handles (fire h start w)).
Proof.
  cbv zeta. set (w := run dateParse evs construct). intros Hs Hin.
  assert (Hwf : timers_wf w) by (apply run_timers_wf, construct_timers_wf).
  destruct Hwf as [Hnd Hlt]. unfold handles in *.
  assert (Hp : pending (fire h start w)
               = (drop_timer h (pending w) ++ [(next_handle w, tick_delay start)])%list).
  { unfold fire. rewrite (proj2 (existsb_handle h (pending w)) Hin).
    now rewrite (nextTick_delay start _ d) by exact Hs. }
  rewrite Hp. split; [reflexivity |]. split.
  - rewrite length_app. cbn [List.length].
    rewrite <- (drop_timer_length h (pending w) Hnd Hin). lia.
  - rewrite map_app. cbn [map fst]. intros Hin'. apply in_app_or in Hin'.
    destruct Hin' as [Hin' | [E | []]].
    + now apply drop_timer_gone in Hin'.
    + rewrite Forall_forall in Hlt. specialize (Hlt _ Hin). lia.
Qed.

Lemma fire_unbound (h : nat) (start : Z) (w : world) :
  _countdownDescElement w = None ->
  pending (fire h start w) = drop_timer h (pending w)
  /\ _countdownDescElement (fire h start w) = None
  /\ rendered (fire h start w) = rendered w
  /\ next_handle (fire h start w) = next_handle w.
Proof.
  intros Hs. unfold fire.
  destruct (existsb (fun p => Nat.eqb (fst p) h) (pending w)) eqn:E.
  - rewrite nextTick_unbound by exact Hs. simpl. auto.
  - rewrite drop_timer_absent; [auto |].
    intros Hin. apply existsb_handle in Hin. congruence.
Qed.

Lemma run_fires_unbound (clock : nat -> Z) (l : list nat) (w : world) :
  _countdownDescElement w = None ->
  let w' := run dateParse (map (fun h => TimerFired h (clock h)) l) w in
  pending w' = fold_left (fun acc h => drop_timer h acc) l (pending w)
  /\ rendered w' = rendered w
  /\ next_handle w' = next_handle w.
Proof.
  revert w. induction l as [| h l IH]; intros w Hs; [cbn; auto |].
  cbn [map run fold_left step].
  destruct (fire_unbound h (clock h) w Hs) as (Hp & Hs' & Hr & Hn).
  specialize (IH _ Hs'). cbv zeta in IH. unfold run in IH.
  destruct IH as (IHp & IHr & IHn).
  rewrite IHp, IHr, IHn, Hp, Hr, Hn. auto.
Qed.

Lemma drop_all (l : list nat) (acc : list (nat * Z)) :
  (forall p, In p acc -> In (fst p) l) ->
  fold_left (fun acc h => drop_timer h acc) l acc = [].
Proof.
  revert acc. induction l as [| h l IH]; intros acc Hall.
  - destruct acc as [| p acc]; [reflexivity |].
    destruct (Hall p (or_introl eq_refl)).
  - cbn [fold_left]. apply IH. intros p Hin.
    apply drop_timer_In in Hin. destruct Hin as [Hin Hne].
    destruct (Hall p Hin) as [E | Hl]; [congruence | exact Hl].
Qed.

(** X15.  The timers left behind by a disconnect die out on their own:
    once the host has let each of them fire, none is outstanding, nothing
    was rendered and no new timer was asked for. *)
Theorem stale_timers_drain (clock : nat -> Z) (w : world) :
  let w0 := disconnectedCallback w in
  let w' := run dateParse (fire_all clock w0) w0 in
  pending w' = []
  /\ rendered w' = rendered w
  /\ next_handle w' = next_handle w.
Proof.
  cbv zeta. unfold fire_all.
  destruct (disconnectedCallback_frame w) as (Hs & _ & Hr).
  destruct (disconnectedCallback_timers w) as (Hn & _).
  destruct (run_fires_unbound clock (handles (disconnectedCallback w))
              (disconnectedCallback w) Hs) as (Hp & Hr' & Hn').
  cbv zeta in Hp, Hr', Hn'. rewrite Hp, Hr', Hn', Hr, Hn.
  split; [| auto].
  apply drop_all. intros p Hin. unfold handles. now apply in_map.
Qed.

End Timers.

Lemma fire_rearms_witness :
  let evs := [Connected 1000; SetTarget (Num (Fin 90000)) 1000] in
  handles (run sampleDateParse evs construct) = [1%nat; 2%nat]
  /\ handles (fire 1%nat 1001 (run sampleDateParse evs construct))
     = [2%nat; 3%nat].
Proof.
  cbv zeta. split; [vm_compute; reflexivity |].
  unfold handles at 1.
  rewrite (proj1 (fire_rearms sampleDateParse
                    [Connected 1000; SetTarget (Num (Fin 90000)) 1000]
                    1%nat 1001 0%nat eq_refl ltac:(vm_compute; auto))).
  vm_compute. reflexivity.
Defined.

(** ** What the fields can hold *)

Section Fields.

Variable dateParse : string -> num.

Lemma normalize_storable (v : val) : storable (normalize dateParse v).
Proof.
  unfold normalize. destruct v as [| | [|] | [z |] | s]; cbn [truthy negb]; try exact I.
  - destruct (z =? 0); exact I.
  - destruct (String.eqb s ""); exact I.
Qed.

Lemma step_storable (w : world) (e : event) :
  storable (_targetTimestamp w) -> storable (_targetTimestamp (step dateParse w e)).
Proof.
  intros Hw.
  destruct (step_cases dateParse w e)
    as [[_ ->] | [[_ ->] | (start & w1 & -> & _ & _ & _ & Ht & _)]].
  - exact Hw.
  - destruct (disconnectedCallback_fields w) as (_ & _ & ->). exact I.
  - destruct (nextTick_fields start w1) as (_ & _ & -> & _).
    destruct Ht as [-> | [v ->]]; [exact Hw | apply normalize_storable].
Qed.

(** X16.  Whatever is assigned to [targetTimestamp], and in whatever
    order the hooks run, the getter of a constructed element never returns
    a string and never returns [false]: the setter converts every string
    and replaces every falsy value by 0. *)
Theorem getter_never_returns_string (evs : list event) :
  storable (get_targetTimestamp (run dateParse evs construct))
  /\ is_string (get_targetTimestamp (run dateParse evs construct)) = false.
Proof.
  assert (H : forall w, storable (_targetTimestamp w) ->
                        storable (_targetTimestamp (run dateParse evs w))).
  { induction evs as [| e evs IH]; intros w Hw; [exact Hw |].
    cbn [run fold_left]. apply IH. now apply step_storable. }
  specialize (H construct I). unfold get_targetTimestamp.
  split; [exact H |].
  destruct (_targetTimestamp (run dateParse evs construct)); try reflexivity.
  destruct H.
Qed.

Lemma step_divs (w : world) (e : event) :
  divs (step dateParse w e)
  = (divs w + if is_connect e then 1 else 0)%nat
  /\ ((forall d, _countdownDescElement w = Some d -> S d = divs w) ->
      forall d, _countdownDescElement (step dateParse w e) = Some d ->
                S d = divs (step dateParse w e)).
Proof.
  destruct (step_cases dateParse w e)
    as [[He ->] | [[He ->] | (start & w1 & -> & _ & _ & _ & _ & Hs)]].
  - rewrite He. split; [lia | auto].
  - rewrite He. destruct (disconnectedCallback_frame w) as (Hs & Hd & _).
    rewrite Hs, Hd. split; [lia |]. intros _ d Hd'. discriminate.
  - destruct (nextTick_fields start w1) as (-> & _ & _ & -> & _).
    destruct (is_connect e); destruct Hs as [-> ->].
    + split; [lia |]. intros _ d Hd. now inversion Hd.
    + split; [lia | auto].
Qed.

(** X17.  The element creates one div per connect and never any
    otherwise, so after any history the number of divs it has appended is
    the number of connects; and the sink, when bound, is the div created
    last. *)
Theorem one_div_per_connect (evs : list event) :
  divs (run dateParse evs construct) = List.length (filter is_connect evs)
  /\ forall d, _countdownDescElement (run dateParse evs construct) = Some d ->
               S d = divs (run dateParse evs construct).
Proof.
  assert (H : forall w,
            (forall d, _countdownDescElement w = Some d -> S d = divs w) ->
            divs (run dateParse evs w)
            = (divs w + List.length (filter is_connect evs))%nat
            /\ forall d, _countdownDescElement (run dateParse evs w) = Some d ->
                         S d = divs (run dateParse evs w)).
  { induction evs as [| e evs IH]; intros w Hw.
    - cbn. split; [lia | exact Hw].
    - cbn [run fold_left]. destruct (step_divs w e) as [Hd Hs].
      destruct (IH _ (Hs Hw)) as [IHd IHs]. unfold run in IHd, IHs.
      split; [| exact IHs]. rewrite IHd, Hd. cbn [filter].
      destruct (is_connect e); cbn [List.length]; lia. }
  destruct (H construct) as [Hd Hs]; [cbn; discriminate |].
  split; [exact Hd | exact Hs].
Qed.

(** X18.  A connect abandons the divs that exist already: whatever
    happens afterwards, the texts rendered from the connect on all go to
    the div it created or to later ones. *)
Theorem connect_abandons_old_divs (start : Z) (w : world) (evs : list event) :
  exists l,
    rendered (run dateParse evs (connectedCallback dateParse start w))
    = (rendered w ++ l)%list
    /\ Forall (fun p => (divs w <= fst p)%nat) l.
Proof.
  destruct (connectedCallback_effect dateParse start w) as (Hs & Hd & _ & Hr).
  assert (H0 : only_new_divs (divs w) (rendered w)
                 (connectedCallback dateParse start w)).
  { split; [lia |]. split.
    - intros d Hd'. rewrite Hs in Hd'. inversion Hd'. lia.
    - eexists. split; [exact Hr |]. constructor; [cbn; lia | constructor]. }
  destruct (run_only_new_divs dateParse _ _ evs _ H0) as (_ & _ & l & Hl & HF).
  now exists l.
Qed.

(** X19.  Exactly where the two copies of the setter agree: on every
    truthy input, on null, on the number 0, and on the empty string if the
    host parses it to 0.  They differ on undefined, [false], [NaN], and on
    the empty string otherwise. *)
Theorem setter_copies_agree_iff (v : val) (start : Z) (w : world) :
  _targetTimestamp (set_targetTimestamp dateParse v start w)
  = _targetTimestamp (set_targetTimestamp_readme dateParse v start w)
  <-> (truthy v = true \/ v = Null \/ v = Num (Fin 0)
       \/ (v = Str "" /\ dateParse "" = Fin 0)).
Proof.
  rewrite set_targetTimestamp_stores, set_targetTimestamp_readme_stores.
  unfold normalize, normalize_readme.
  destruct v as [| | [|] | [z |] | s]; cbn [truthy is_null negb].
  - split; [discriminate | intros [H | [H | [H | [H _]]]]; discriminate].
  - split; [auto | reflexivity].
  - split; [auto | reflexivity].
  - split; [discriminate | intros [H | [H | [H | [H _]]]]; discriminate].
  - destruct (Z.eqb_spec z 0) as [-> | Hz]; cbn [negb].
    + split; [auto | reflexivity].
    + split; [auto | reflexivity].
  - split; [discriminate | intros [H | [H | [H | [H _]]]]; discriminate].
  - destruct (String.eqb_spec s "") as [-> | Hs]; cbn [negb].
    + split.
      * intros H. right. right. right. split; [reflexivity |]. now inversion H.
      * intros [H | [H | [H | [_ H]]]]; try discriminate. now rewrite H.
    + split; [auto | reflexivity].
Qed.

(** X20.  The attribute hook handles exactly the names the class
    declares as observed: for such a name it is the setter applied to the
    new value, the old value playing no part; for any other name it does
    nothing. *)
Theorem attributeChangedCallback_observed
    (name : string) (oldValue newValue : val) (start : Z) (w : world) :
  (In name observedAttributes ->
     attributeChangedCallback dateParse name oldValue newValue start w
     = set_targetTimestamp dateParse newValue start w)
  /\ (~ In name observedAttributes ->
     attributeChangedCallback dateParse name oldValue newValue start w = w).
Proof.
  unfold attributeChangedCallback, observedAttributes.
  destruct (String.eqb_spec name "target-timestamp") as [-> | Hne].
  - split; [reflexivity |]. intros Hn. exfalso. apply Hn. now left.
  - split; [| reflexivity]. intros [E | []]. congruence.
Qed.

End Fields.

Lemma attributeChangedCallback_observed_witness :
  In "target-timestamp" observedAttributes
  /\ ~ In "id" observedAttributes
  /\ attributeChangedCallback sampleDateParse "id" Null (Str "timer") 1000 construct
     = construct.
Proof.
  assert (H1 : In "target-timestamp" observedAttributes) by (now left).
  assert (H2 : ~ In "id" observedAttributes) by (intros [E | []]; discriminate).
  split; [exact H1 |]. split; [exact H2 |].
  exact (proj2 (attributeChangedCallback_observed sampleDateParse "id" Null
                  (Str "timer") 1000 construct) H2).
Defined.

(** ** Markup order: attribute first, connect second *)

Section Markup.

Variable dateParse : string -> num.

(** X21.  The element as it is written in markup.  The attribute hook
    runs on the still unconnected element: it stores the parsed date,
    renders nothing and asks for no timer.  The connect that follows
    renders the countdown to that date into the new div and asks for one
    timer. *)
Theorem attribute_then_connect_renders_countdown
    (oldValue : val) (s : string) (t start start' : Z) (w : world)
    (Hsink : _countdownDescElement w = None)
    (Htimer : _tickTimer w = None)
    (Hs : s <> "")
    (Hparse : dateParse s = Fin t)
    (Hlater : start' < t) :
  let w1 := attributeChangedCallback dateParse "target-timestamp" oldValue (Str s) start w in
  let w2 := connectedCallback dateParse start' w1 in
  get_targetTimestamp w1 = Num (Fin t)
  /\ rendered w1 = rendered w
  /\ pending w1 = pending w
  /\ rendered w2 = (rendered w ++ [(divs w, timeMsDiffToString (Fin (t - start')))])%list
  /\ pending w2 = (pending w ++ [(next_handle w, tick_delay start')])%list.
Proof.
  cbv zeta. unfold attributeChangedCallback, get_targetTimestamp.
  cbn [String.eqb Ascii.eqb Bool.eqb andb].
  set (w1 := set_targetTimestamp dateParse (Str s) start w).
  assert (E1 : w1 = with_target (Num (Fin t)) w).
  { unfold w1. rewrite set_targetTimestamp_null by exact Htimer.
    rewrite nextTick_unbound by exact Hsink.
    unfold normalize. cbn [truthy].
    rewrite (proj2 (String.eqb_neq s "") Hs). cbn [negb]. now rewrite Hparse. }
  rewrite E1. cbn [with_target _targetTimestamp rendered pending].
  split; [reflexivity |]. split; [reflexivity |]. split; [reflexivity |].
  destruct (connectedCallback_effect dateParse start' (with_target (Num (Fin t)) w))
    as (_ & _ & _ & Cr).
  split.
  - rewrite Cr. cbn [with_target _targetTimestamp rendered divs].
    assert (En : normalize dateParse (Num (Fin t)) = Num (Fin t)).
    { unfold normalize. cbn [truthy]. destruct (Z.eqb_spec t 0) as [-> | _]; reflexivity. }
    rewrite En. unfold tick_text. cbn [to_number sub le0].
    destruct (Z.leb_spec (t - start') 0); [lia | reflexivity].
  - unfold connectedCallback, createElement.
    rewrite set_targetTimestamp_null by (cbn; exact Htimer).
    rewrite (nextTick_delay start' _ (divs w)) by reflexivity.
    reflexivity.
Qed.

End Markup.

Lemma attribute_then_connect_renders_countdown_witness :
  rendered (connectedCallback sampleDateParse 1665532739000
              (attributeChangedCallback sampleDateParse "target-timestamp" Null
                 (Str "10/12/2022") 1665532738000 construct))
  = [(0%nat, "1 minute, 1 second")].
Proof.
  exact (proj1 (proj2 (proj2 (proj2
    (attribute_then_connect_renders_countdown sampleDateParse Null "10/12/2022"
       1665532800000 1665532738000 1665532739000 construct
       eq_refl eq_refl ltac:(discriminate) eq_refl ltac:(lia)))))).
Defined.
